(** * geomstats: hyperbolic space and the general linear group

    A shallow embedding of [geomstats/hyperbolic_space.py] and
    [geomstats/geometry/general_linear.py].

    - Python exceptions are an error monad ([result]).
    - One-dimensional numpy arrays are lists of scalars.
    - The scalar type is abstract ([Scalar], [Elementary]): the control flow
      of the library does not depend on the arithmetic, so the statements
      about raised exceptions hold for every backend.  Statements that need
      arithmetic laws are proved for the instance over the real numbers
      (exact arithmetic, no rounding); a second instance over the rationals
      runs the part of the code without square roots inside the kernel.
    - The backend of the general linear group ([geomstats.backend],
      [Matrices.mul]) is a set of section variables. *)

From Stdlib Require Import Reals Lra Lia List ZArith QArith Bool Arith.
Import ListNotations.

Set Implicit Arguments.

(** ** Python runtime: exceptions, [None], [assert] *)

Inductive exn : Type :=
| AssertionError
| IndexError
| ValueError
| LinAlgError.

Inductive result (A : Type) : Type :=
| Ok (a : A)
| Raise (e : exn).

Arguments Ok {A} a.
Arguments Raise {A} e.

Definition bind {A B : Type} (c : result A) (k : A -> result B) : result B :=
  match c with
  | Ok a => k a
  | Raise e => Raise e
  end.

Notation "x <- c ;; k" := (bind c (fun x => k))
  (at level 61, c at next level, right associativity).
Notation "c ;;; k" := (bind c (fun _ => k))
  (at level 61, right associativity).

(** The values an [assert] statement of this code base tests: the result of
    a comparison, or the [None] a function without [return] evaluates to. *)
Inductive pyval : Type :=
| PyNone
| PyBool (b : bool).

Definition truthy (v : pyval) : bool :=
  match v with
  | PyNone => false
  | PyBool b => b
  end.

(** [assert e] is [if __debug__: if not e: raise AssertionError]: with
    [__debug__] false (interpreter option -O) the statement is removed and
    [e] is not evaluated; [__debug__] is true by default. *)
Definition py_assert (debug : bool) (e : result pyval) : result unit :=
  if debug then
    v <- e ;;
    if truthy v then Ok tt else Raise AssertionError
  else Ok tt.

(** ** The numeric backend *)

Declare Scope fl_scope.
Delimit Scope fl_scope with fl.

Class Scalar (F : Type) : Type := {
  of_Z : Z -> F;
  fadd : F -> F -> F;
  fsub : F -> F -> F;
  fmul : F -> F -> F;
  fdiv : F -> F -> F;
  fopp : F -> F;
  fabs : F -> F;
  fpow : F -> nat -> F;
  fltb : F -> F -> bool;
  fleb : F -> F -> bool;
  feqb : F -> F -> bool
}.

Class Elementary (F : Type) : Type := {
  fsqrt : F -> F;
  fcosh : F -> F;
  fsinh : F -> F;
  ftanh : F -> F;
  farccosh : F -> F
}.

Infix "+" := fadd : fl_scope.
Infix "-" := fsub : fl_scope.
Infix "*" := fmul : fl_scope.
Infix "/" := fdiv : fl_scope.
Notation "- x" := (fopp x) : fl_scope.
Infix "**" := fpow (at level 30, right associativity) : fl_scope.
Infix "<?" := fltb : fl_scope.
Infix "<=?" := fleb : fl_scope.
Notation "x !=? y" := (negb (feqb x y)) (at level 70) : fl_scope.
Notation "# z" := (of_Z z%Z) (at level 9, z at level 9, format "# z") : fl_scope.

(** *** Exact real arithmetic

    No rounding, no infinities and no NaN: a quotient by [0] is a real
    number here, where numpy returns [inf] or [nan]; the statements over
    the real numbers keep every divisor away from [0]. *)

Definition Rltb (x y : R) : bool := if Rlt_dec x y then true else false.
Definition Rleb (x y : R) : bool := if Rle_dec x y then true else false.
Definition Reqb (x y : R) : bool := if Req_dec_T x y then true else false.

(** numpy's [arccosh], by its defining formula. *)
Definition arccosh (x : R) : R := ln (x + sqrt (x * x - 1)).

#[export] Instance R_scalar : Scalar R := {|
  of_Z := IZR;
  fadd := Rplus;
  fsub := Rminus;
  fmul := Rmult;
  fdiv := Rdiv;
  fopp := Ropp;
  fabs := Rabs;
  fpow := pow;
  fltb := Rltb;
  fleb := Rleb;
  feqb := Reqb
|}.

#[export] Instance R_elementary : Elementary R := {|
  fsqrt := sqrt;
  fcosh := cosh;
  fsinh := sinh;
  ftanh := tanh;
  farccosh := arccosh
|}.

(** *** Exact rational arithmetic (no square root, no hyperbolic functions) *)

Definition Qltb (x y : Q) : bool := negb (Qle_bool y x).

#[export] Instance Q_scalar : Scalar Q := {|
  of_Z := inject_Z;
  fadd := Qplus;
  fsub := Qminus;
  fmul := Qmult;
  fdiv := Qdiv;
  fopp := Qopp;
  fabs := Qabs.Qabs;
  fpow := fun x n => Qpower x (Z.of_nat n);
  fltb := Qltb;
  fleb := Qle_bool;
  feqb := Qeq_bool
|}.

(** ** numpy arrays of one axis *)

Section Arrays.
Context {F : Type} `{Scalar F}.
Local Open Scope fl_scope.

Definition vec : Type := list F.

Fixpoint zip_with (op : F -> F -> F) (a b : vec) : vec :=
  match a, b with
  | x :: a', y :: b' => op x y :: zip_with op a' b'
  | _, _ => []
  end.

(** Elementwise binary operation of two arrays, with numpy's broadcasting
    of a one-element array; other shape mismatches raise [ValueError]. *)
Definition broadcast2 (op : F -> F -> F) (a b : vec) : result vec :=
  if Nat.eqb (length a) (length b) then Ok (zip_with op a b)
  else match a, b with
       | [x], _ => Ok (map (op x) b)
       | _, [y] => Ok (map (fun x => op x y) a)
       | _, _ => Raise ValueError
       end.

(** [c * v] and [v / c] for a scalar [c]. *)
Definition smul (c : F) (v : vec) : vec := map (fun x => c * x) v.
Definition sdiv (v : vec) (c : F) : vec := map (fun x => x / c) v.

(** [v - c] and [v * c] for a scalar [c]. *)
Definition ssub (v : vec) (c : F) : vec := map (fun x => x - c) v.
Definition smul_r (v : vec) (c : F) : vec := map (fun x => x * c) v.

Fixpoint dot_sum (a b : vec) : F :=
  match a, b with
  | x :: a', y :: b' => x * y + dot_sum a' b'
  | _, _ => #0
  end.

(** [np.dot] of two arrays of one axis. *)
Definition np_dot (a b : vec) : result F :=
  if Nat.eqb (length a) (length b) then Ok (dot_sum a b)
  else Raise ValueError.

(** [v[i]] *)
Definition getitem (v : vec) (i : nat) : result F :=
  match nth_error v i with
  | Some x => Ok x
  | None => Raise IndexError
  end.

(** [np.zeros(n, 'float')] *)
Definition np_zeros (n : nat) : vec := repeat #0 n.

(** [v[a:b]] for [0 <= a], [0 <= b] *)
Definition slice (v : vec) (a b : nat) : vec := firstn (b - a) (skipn a v).

(** [v[a:b] = w] for [0 <= a], [0 <= b]: the length of [v] is kept, and
    [w] has the length of the slice or is broadcast from one element. *)
Definition set_slice (v : vec) (a b : nat) (w : vec) : result vec :=
  let n := length (slice v a b) in
  if Nat.eqb (length w) n then Ok (firstn a v ++ w ++ skipn (a + n) v)
  else match w with
       | [x] => Ok (firstn a v ++ repeat x n ++ skipn (a + n) v)
       | _ => Raise ValueError
       end.

(** [v[i] = x] for [0 <= i] *)
Definition setitem (v : vec) (i : nat) (x : F) : result vec :=
  if Nat.ltb i (length v) then Ok (firstn i v ++ x :: skipn (S i) v)
  else Raise IndexError.
End Arrays.

(** ** hyperbolic_space.py *)

Module HyperbolicSpace.
Section Hyperbolic.
Context {F : Type} `{Scalar F} `{Elementary F}.
Local Open Scope fl_scope.

(** The interpreter's [__debug__] flag. *)
Variable debug : bool.

(** [math.factorial]; the entries [1 / math.factorial(k)] of the tables
    are true divisions of two integers, with a floating-point result. *)
Definition factorial (n : nat) : Z := Z.of_nat (fact n).

Definition EPSILON : F := #1 / #1000000.
Definition TOLERANCE : F := #1 / #1000000000000.

Definition SINH_TAYLOR_COEFFS : list F :=
  [#0; #1;
   #0; #1 / #(factorial 3);
   #0; #1 / #(factorial 5);
   #0; #1 / #(factorial 7);
   #0; #1 / #(factorial 9)].
Definition COSH_TAYLOR_COEFFS : list F :=
  [#1; #0;
   #1 / #(factorial 2); #0;
   #1 / #(factorial 4); #0;
   #1 / #(factorial 6); #0;
   #1 / #(factorial 8); #0].
Definition INV_SINH_TAYLOR_COEFFS : list F :=
  [#0; - #1 / #6;
   #0; #7 / #360;
   #0; - #31 / #15120;
   #0; #127 / #604800].
Definition INV_TANH_TAYLOR_COEFFS : list F :=
  [#0; #1 / #3;
   #0; - #1 / #45;
   #0; #2 / #945;
   #0; - #1 / #4725].

(** [table[i]] for a literal index [i] of a module-level table; every use
    below is within the table (see [table_indices_in_range]). *)
Definition coeff (table : list F) (i : nat) : F := nth i table #0.

(** Minkowski inner product. *)
Definition embedding_inner_product (vector_a vector_b : vec) : result F :=
  d <- np_dot vector_a vector_b ;;
  a0 <- getitem vector_a 0 ;;
  b0 <- getitem vector_b 0 ;;
  Ok (d - #2 * a0 * b0).

(** Minkowski norm. *)
Definition embedding_squared_norm (vector : vec) : result F :=
  embedding_inner_product vector vector.

(** [math.sqrt]: a negative argument is a math domain error. *)
Definition math_sqrt (x : F) : result F :=
  if x <? #0 then Raise ValueError else Ok (fsqrt x).

(** The body is one [assert] and there is no [return]: a call that does
    not raise evaluates to [None]. *)
Definition belongs (point : vec) (tolerance : F) : result pyval :=
  py_assert debug
    (n <- embedding_squared_norm point ;;
     Ok (PyBool (fabs (n + #1) <? tolerance))) ;;;
  Ok PyNone.

(** From the intrinsic coordinates in the hyperbolic space, to the
    extrinsic coordinates in Minkowski space. *)
Definition intrinsic_to_extrinsic_coords (point_intrinsic : vec)
  : result vec :=
  let dimension := length point_intrinsic in
  let point_extrinsic := np_zeros (dimension + 1) in
  point_extrinsic <-
    set_slice point_extrinsic 1 (dimension + 1)
              (slice point_intrinsic 0 dimension) ;;
  d <- np_dot point_intrinsic point_intrinsic ;;
  point_extrinsic <- setitem point_extrinsic 0 (fsqrt (#1 + d)) ;;
  Ok point_extrinsic.

(** From the extrinsic coordinates in Minkowski space, to the intrinsic
    coordinates in the hyperbolic space. *)
Definition extrinsic_to_intrinsic_coords (point_extrinsic : vec)
  : result vec :=
  py_assert debug (belongs point_extrinsic TOLERANCE) ;;;
  Ok (skipn 1 point_extrinsic).

(** Project the vector [vector] onto the tangent space at [ref_point]. *)
Definition projection_to_tangent_space (ref_point vector : vec)
  : result vec :=
  py_assert debug (belongs ref_point TOLERANCE) ;;;
  inner_prod <- embedding_inner_product ref_point vector ;;
  sq_norm_ref_point <- embedding_squared_norm ref_point ;;
  tangent_vec <-
    broadcast2 fsub vector
               (sdiv (smul inner_prod ref_point) sq_norm_ref_point) ;;
  Ok tangent_vec.

(** The Riemannian exponential at [ref_point] of the vector [vector];
    [math.sqrt] raises on a negative squared norm. *)
Definition riemannian_exp (ref_point vector : vec) (epsilon : F)
  : result vec :=
  py_assert debug (belongs ref_point TOLERANCE) ;;;
  tangent_vec <- projection_to_tangent_space ref_point vector ;;
  sq <- embedding_squared_norm tangent_vec ;;
  norm_tangent_vec <- math_sqrt sq ;;
  let '(coef_1, coef_2) :=
    if norm_tangent_vec <? epsilon then
      (#1 + coeff COSH_TAYLOR_COEFFS 2 * norm_tangent_vec ** 2
          + coeff COSH_TAYLOR_COEFFS 4 * norm_tangent_vec ** 4
          + coeff COSH_TAYLOR_COEFFS 6 * norm_tangent_vec ** 6
          + coeff COSH_TAYLOR_COEFFS 8 * norm_tangent_vec ** 8,
       #1 + coeff SINH_TAYLOR_COEFFS 3 * norm_tangent_vec ** 2
          + coeff SINH_TAYLOR_COEFFS 5 * norm_tangent_vec ** 4
          + coeff SINH_TAYLOR_COEFFS 7 * norm_tangent_vec ** 6
          + coeff SINH_TAYLOR_COEFFS 9 * norm_tangent_vec ** 8)
    else
      (fcosh norm_tangent_vec,
       fsinh norm_tangent_vec / norm_tangent_vec) in
  riem_exp <-
    broadcast2 fadd (smul coef_1 ref_point) (smul coef_2 tangent_vec) ;;
  Ok riem_exp.

(** The distance of two points; [root] is the value of
    [math.sqrt(sq_norm_a * sq_norm_b)]. *)
Definition riemannian_dist (point_a point_b : vec) : result F :=
  py_assert debug (belongs point_a TOLERANCE) ;;;
  py_assert debug (belongs point_b TOLERANCE) ;;;
  sq_norm_a <- embedding_squared_norm point_a ;;
  sq_norm_b <- embedding_squared_norm point_b ;;
  inner_prod <- embedding_inner_product point_a point_b ;;
  root <- math_sqrt (sq_norm_a * sq_norm_b) ;;
  let cosh_angle := - inner_prod / root in
  if cosh_angle <=? #1 then Ok #0
  else Ok (farccosh cosh_angle).

(** The Riemannian logarithm at [ref_point] of the point [point]. *)
Definition riemannian_log (ref_point point : vec) (epsilon : F)
  : result vec :=
  py_assert debug (belongs ref_point TOLERANCE) ;;;
  py_assert debug (belongs point TOLERANCE) ;;;
  angle <- riemannian_dist ref_point point ;;
  let '(coef_1, coef_2) :=
    if angle <? epsilon then
      (#1 + coeff INV_SINH_TAYLOR_COEFFS 1 * angle ** 2
          + coeff INV_SINH_TAYLOR_COEFFS 3 * angle ** 4
          + coeff INV_SINH_TAYLOR_COEFFS 5 * angle ** 6
          + coeff INV_SINH_TAYLOR_COEFFS 7 * angle ** 8,
       #1 + coeff INV_TANH_TAYLOR_COEFFS 1 * angle ** 2
          + coeff INV_TANH_TAYLOR_COEFFS 3 * angle ** 4
          + coeff INV_TANH_TAYLOR_COEFFS 5 * angle ** 6
          + coeff INV_TANH_TAYLOR_COEFFS 7 * angle ** 8)
    else
      (angle / fsinh angle, angle / ftanh angle) in
  broadcast2 fsub (smul coef_1 point) (smul coef_2 ref_point).

(** Generate a random element on the hyperbolic space.  [random_sample]
    stands for [np.random.random_sample], which returns, for a number
    [dimension], an array of that many numbers of the interval [0, 1);
    [.5] is the fraction [1 / 2]. *)
Definition random_uniform (random_sample : nat -> vec) (dimension : nat)
           (max_norm : F) : result vec :=
  let point_intrinsic :=
    smul_r (ssub (random_sample dimension) (#1 / #2)) max_norm in
  intrinsic_to_extrinsic_coords point_intrinsic.
End Hyperbolic.
End HyperbolicSpace.

(** ** Arrays with an optional leading batch axis *)

Inductive batched (A : Type) : Type :=
| One (a : A)
| Many (l : list A).

Arguments One {A} a.
Arguments Many {A} l.

Definition bmap {A B : Type} (f : A -> B) (x : batched A) : batched B :=
  match x with
  | One a => One (f a)
  | Many l => Many (map f l)
  end.

Fixpoint mapM {A B : Type} (f : A -> result B) (l : list A)
  : result (list B) :=
  match l with
  | [] => Ok []
  | a :: l' => b <- f a ;; bs <- mapM f l' ;; Ok (b :: bs)
  end.

Definition bmapM {A B : Type} (f : A -> result B) (x : batched A)
  : result (batched B) :=
  match x with
  | One a => b <- f a ;; Ok (One b)
  | Many l => bs <- mapM f l ;; Ok (Many bs)
  end.

(** ** geometry/general_linear.py *)

Module GeneralLinear.
Section GL.
Context {F : Type} `{Scalar F}.
Local Open Scope fl_scope.

(** Matrices of shape [n, n], and what the class takes from
    [geomstats.backend] ([gs]) and from its parent class [Matrices]. *)
Variable M : Type.
Variable n : nat.
Variable gs_eye : nat -> nat -> M.
Variable gs_linalg_det : M -> F.
(** [gs.linalg.inv]: a singular matrix raises [LinAlgError]. *)
Variable gs_linalg_inv : M -> result M.
Variable gs_linalg_expm : M -> M.
Variable gs_linalg_logm : M -> M.
(** [Matrices.mul] of two matrices. *)
Variable mul : M -> M -> M.
(** The product of a number and a matrix. *)
Variable scale : F -> M -> M.

(** [gs.where(cond, x, y)], elementwise. *)
Definition gs_where {A : Type} (cond : batched bool) (x y : A)
  : batched A :=
  bmap (fun c : bool => if c then x else y) cond.

(** Test if a matrix is invertible. *)
Definition belongs (point : batched M) : batched bool :=
  let det := bmap gs_linalg_det point in
  gs_where (bmap (fun d => d !=? #0) det) true false.

(** Return the identity matrix. *)
Definition identity : M := gs_eye n n.

(** Return the product of a collection of matrices: [Matrices.mul] of
    the argument list folds the binary product from the left; at least
    one matrix is given. *)
Definition compose (first : M) (args : list M) : M :=
  fold_left mul args first.

(** Return the inverse of a matrix. *)
Definition inv (point : M) : result M := gs_linalg_inv point.

(** Exponentiate a left-invariant vector field from a base point.  The
    call [cls.exp(lie_algebra_vec)] of the second branch has no base
    point: it is the first branch, [expm(lie_algebra_vec)]. *)
Definition exp (tangent_vec : M) (base_point : option M) : result M :=
  let expm := gs_linalg_expm in
  match base_point with
  | None => Ok (expm tangent_vec)
  | Some base_point =>
      base_inv <- inv base_point ;;
      let lie_algebra_vec := mul base_inv tangent_vec in
      Ok (mul base_point (expm lie_algebra_vec))
  end.

(** Calculate a left-invariant vector field bringing base_point to
    point. *)
Definition log (point : M) (base_point : option M) : result M :=
  let logm := gs_linalg_logm in
  match base_point with
  | None => Ok (logm point)
  | Some base_point =>
      base_inv <- inv base_point ;;
      let lie_algebra_vec := logm (mul base_inv point) in
      Ok (mul base_point lie_algebra_vec)
  end.

(** Modelled from the spec: [gs.einsum('t,...ij->...tij', time, v)] of
    the backend, which is not part of the sources, for a matrix [v] of
    shape [n, n]: the matrices [t . v], one for each entry of [time].
    The subscript [t] gives [time] exactly one axis: a scalar [time] is
    rejected with [ValueError], as numpy's [einsum] does. *)
Definition gs_einsum_t_ij (time : batched F) (tangent_vec : M)
  : result (batched M) :=
  match time with
  | One _ => Raise ValueError
  | Many times => Ok (Many (map (fun t => scale t tangent_vec) times))
  end.

(** Modelled from the spec: [cls.exp] on the stack of matrices that
    [path] passes, by the backend's vectorisation over the leading axis
    ("identical per-element results to the unbatched call"). *)
Definition exp_vectorized (vecs : batched M) (base_point : option M)
  : result (batched M) :=
  bmapM (fun v => exp v base_point) vecs.

(** Compute the one-parameter orbit of base_point passing through point:
    the logarithm is taken when [orbit] is called, the exponential when
    the returned function is. *)
Definition orbit (point : M) (base_point : option M)
  : result (batched F -> result (batched M)) :=
  tangent_vec <- log point base_point ;;
  let path := fun time =>
    vecs <- gs_einsum_t_ij time tangent_vec ;;
    exp_vectorized vecs base_point in
  Ok path.

(** The base point an omitted argument stands for. *)
Definition base_or_identity (base_point : option M) : M :=
  match base_point with
  | None => identity
  | Some base_point => base_point
  end.

(** [point] is invertible: [belongs] answers [True]. *)
Definition invertible (point : M) : Prop := belongs (One point) = One true.

(** The base point, when one is given, is invertible. *)
Definition base_invertible (base_point : option M) : Prop :=
  match base_point with
  | None => True
  | Some base_point => invertible base_point
  end.

End GL.
End GeneralLinear.

(** ** Two concrete matrix backends *)

(** Square matrices as lists of rows, with the determinant by expansion
    along the first row. *)
Section ListMatrix.
Context {F : Type} `{Scalar F}.
Local Open Scope fl_scope.

Definition matrix : Type := list (list F).

Definition drop_column (j : nat) (row : list F) : list F :=
  firstn j row ++ skipn (S j) row.

Fixpoint alternating_sum (terms : list F) : F :=
  match terms with
  | [] => #0
  | t :: terms' => t - alternating_sum terms'
  end.

Fixpoint laplace (size : nat) (m : matrix) : F :=
  match size, m with
  | S size', row :: rest =>
      alternating_sum
        (map (fun j => nth j row #0
                       * laplace size' (map (drop_column j) rest))
             (seq 0 (length row)))
  | _, _ => #1
  end.

Definition list_det (m : matrix) : F := laplace (length m) m.

Definition zero_matrix (rows cols : nat) : matrix :=
  repeat (repeat #0 cols) rows.
End ListMatrix.

(** The group GL(1) of the real numbers: matrices of shape [1, 1] are
    their only entry, the matrix exponential is the exponential, and the
    logarithm is the natural logarithm (real on the positive numbers
    only). *)
Module GL1.
Definition det (x : R) : R := x.
Definition linalg_inv (x : R) : result R :=
  if Reqb x 0 then Raise LinAlgError else Ok (/ x)%R.
Definition expm (x : R) : R := Rtrigo_def.exp x.
Definition logm (x : R) : R := ln x.
Definition mul (x y : R) : R := (x * y)%R.
Definition scale (t x : R) : R := (t * x)%R.
Definition eye (rows cols : nat) : R := 1%R.
Definition zeros : R := 0%R.

Definition group_exp := GeneralLinear.exp linalg_inv expm mul.
Definition group_log := GeneralLinear.log linalg_inv logm mul.
Definition group_orbit :=
  GeneralLinear.orbit linalg_inv expm logm mul scale.
End GL1.

(** The matrices [[a, -b], [b, a]] of shape [2, 2], written [(a, b)]:
    they are closed under the product, the inverse, the matrix
    exponential [e^a [[cos b, -sin b], [sin b, cos b]]] and the principal
    matrix logarithm [[[ln r, -theta], [theta, ln r]]], [r] the modulus
    and [theta] the angle in (-pi, pi]; the determinant is [a^2 + b^2]. *)
Module Similarity.
Local Open Scope R_scope.

Definition mat : Type := (R * R)%type.

Definition det (z : mat) : R := fst z * fst z + snd z * snd z.
Definition mul (z w : mat) : mat :=
  (fst z * fst w - snd z * snd w, fst z * snd w + snd z * fst w).
Definition linalg_inv (z : mat) : result mat :=
  if Reqb (det z) 0 then Raise LinAlgError
  else Ok (fst z / det z, - snd z / det z).
Definition eye (rows cols : nat) : mat := (1, 0).
Definition zeros : mat := (0, 0).
Definition scale (t : R) (z : mat) : mat := (t * fst z, t * snd z).
Definition expm (z : mat) : mat :=
  (Rtrigo_def.exp (fst z) * cos (snd z),
   Rtrigo_def.exp (fst z) * sin (snd z)).
Definition modulus (z : mat) : R := sqrt (det z).
Definition angle (z : mat) : R :=
  if Rleb 0 (snd z) then acos (fst z / modulus z)
  else - acos (fst z / modulus z).
Definition logm (z : mat) : mat := (ln (modulus z), angle z).

Definition group_exp := GeneralLinear.exp linalg_inv expm mul.
Definition group_log := GeneralLinear.log linalg_inv logm mul.
Definition group_orbit :=
  GeneralLinear.orbit linalg_inv expm logm mul scale.

(** The matrix [-6 I] and the rotation by a right angle. *)
Definition minus_six : mat := (-6, 0).
Definition quarter_turn : mat := (0, 1).
End Similarity.

(** ** The formulas of the specification, over the real numbers *)

Module Formulas.
Local Open Scope R_scope.

(** [1 + r^2/2! + r^4/4! + r^6/6! + r^8/8!] *)
Definition cosh_taylor (r : R) : R :=
  1 + r ^ 2 / 2 + r ^ 4 / 24 + r ^ 6 / 720 + r ^ 8 / 40320.

(** [1 + r^2/3! + r^4/5! + r^6/7! + r^8/9!] *)
Definition sinh_over_r_taylor (r : R) : R :=
  1 + r ^ 2 / 6 + r ^ 4 / 120 + r ^ 6 / 5040 + r ^ 8 / 362880.

Definition exp_coef_1 (r epsilon : R) : R :=
  if Rltb r epsilon then cosh_taylor r else cosh r.

Definition exp_coef_2 (r epsilon : R) : R :=
  if Rltb r epsilon then sinh_over_r_taylor r else sinh r / r.

(** The series of [a / sinh a] and of [a / tanh a], to the eighth power. *)
Definition inv_sinh_taylor (a : R) : R :=
  1 - a ^ 2 / 6 + 7 * a ^ 4 / 360 - 31 * a ^ 6 / 15120
  + 127 * a ^ 8 / 604800.

Definition inv_tanh_taylor (a : R) : R :=
  1 + a ^ 2 / 3 - a ^ 4 / 45 + 2 * a ^ 6 / 945 - a ^ 8 / 4725.

Definition log_coef_1 (a epsilon : R) : R :=
  if Rltb a epsilon then inv_sinh_taylor a else a / sinh a.

Definition log_coef_2 (a epsilon : R) : R :=
  if Rltb a epsilon then inv_tanh_taylor a else a / tanh a.

(** [vector - (inner_prod / sq_norm) . ref_point], entry by entry. *)
Definition projection (ref_point vector : list R) (inner_prod sq_norm : R)
  : list R :=
  zip_with Rminus vector
           (map (fun x => inner_prod / sq_norm * x) ref_point).

(** The distance, from the three Minkowski products. *)
Definition clamped_arccosh (cosh_angle : R) : R :=
  if Rleb cosh_angle 1 then 0 else arccosh cosh_angle.
End Formulas.

(** ** Sample points of the hyperboloid, over the real numbers *)

Module SamplePoints.
Local Open Scope R_scope.

(** The base point [1, 0, 0]. *)
Definition origin : list R := [1; 0; 0].

(** A second point of the upper sheet, with coordinates that are binary
    fractions. *)
Definition boosted : list R := [5 / 4; 3 / 4; 0].

(** The mirror image of the base point, on the lower sheet. *)
Definition antipode : list R := [-1; 0; 0].
End SamplePoints.

(** * Properties *)

(** ** The error monad *)

Lemma bind_Ok {A B : Type} (a : A) (k : A -> result B) :
  bind (Ok a) k = k a.
Proof. reflexivity. Qed.

Lemma bind_Raise {A B : Type} (e : exn) (k : A -> result B) :
  bind (Raise e) k = Raise e.
Proof. reflexivity. Qed.

Lemma bind_Ok_inv {A B : Type} (c : result A) (k : A -> result B) (b : B) :
  bind c k = Ok b -> exists a, c = Ok a /\ k a = Ok b.
Proof.
  destruct c as [a | e]; simpl; intros Hk.
  - exists a. split; [reflexivity | exact Hk].
  - discriminate Hk.
Qed.

Lemma py_assert_None (debug : bool) :
  py_assert debug (Ok PyNone) = if debug then Raise AssertionError else Ok tt.
Proof. destruct debug; reflexivity. Qed.

Lemma py_assert_Raise (e : exn) :
  py_assert true (Raise e) = Raise e.
Proof. reflexivity. Qed.

Lemma py_assert_off (e : result pyval) : py_assert false e = Ok tt.
Proof. reflexivity. Qed.

(** ** Membership and the operations guarded by it, for every backend *)

Module HyperbolicFacts.
Import HyperbolicSpace.
Section AnyBackend.
Context {F : Type} `{Scalar F} `{Elementary F}.
Local Open Scope fl_scope.

Lemma np_dot_self (v : vec) : np_dot v v = Ok (dot_sum v v).
Proof. unfold np_dot. now rewrite Nat.eqb_refl. Qed.

Lemma np_dot_Ok_length (a b : vec) (d : F) :
  np_dot a b = Ok d -> length a = length b.
Proof.
  unfold np_dot. destruct (Nat.eqb (length a) (length b)) eqn:E.
  - intros _. now apply Nat.eqb_eq.
  - discriminate.
Qed.

Lemma embedding_inner_product_cons (x y : F) (a b : vec) :
  length a = length b ->
  embedding_inner_product (x :: a) (y :: b)
  = Ok (dot_sum (x :: a) (y :: b) - #2 * x * y).
Proof.
  intros Hl. unfold embedding_inner_product, np_dot. simpl length.
  rewrite Hl, Nat.eqb_refl. reflexivity.
Qed.

Lemma embedding_squared_norm_cons (x : F) (v : vec) :
  embedding_squared_norm (x :: v)
  = Ok (dot_sum (x :: v) (x :: v) - #2 * x * x).
Proof. now apply embedding_inner_product_cons. Qed.

Lemma embedding_squared_norm_nil :
  embedding_squared_norm (F := F) [] = Raise IndexError.
Proof. reflexivity. Qed.

(** The value of [belongs], by the outcome of its comparison. *)
Lemma belongs_cons (debug : bool) (x : F) (v : vec) (tolerance : F) :
  belongs debug (x :: v) tolerance
  = if debug
    then if fabs (dot_sum (x :: v) (x :: v) - #2 * x * x + #1) <? tolerance
         then Ok PyNone else Raise AssertionError
    else Ok PyNone.
Proof.
  unfold belongs, py_assert. destruct debug; [| reflexivity].
  rewrite embedding_squared_norm_cons. simpl.
  now destruct (_ <? tolerance).
Qed.

Lemma belongs_nil (tolerance : F) :
  belongs true [] tolerance = Raise IndexError.
Proof. reflexivity. Qed.

(** A call of [belongs] that returns, returns [None]. *)
Lemma belongs_returns_None (debug : bool) (point : vec) (tolerance : F)
      (v : pyval) :
  belongs debug point tolerance = Ok v -> v = PyNone.
Proof.
  unfold belongs. intros Hb.
  apply bind_Ok_inv in Hb as [_ [_ Hv]]. now inversion Hv.
Qed.

(** [assert self.belongs(point)] raises whatever [belongs] does. *)
Lemma assert_belongs_cons (x : F) (v : vec) (tolerance : F) :
  py_assert true (belongs true (x :: v) tolerance) = Raise AssertionError.
Proof.
  rewrite belongs_cons.
  now destruct (_ <? tolerance).
Qed.

Lemma assert_belongs_nil (tolerance : F) :
  py_assert true (belongs true [] tolerance) = Raise IndexError.
Proof. reflexivity. Qed.

Lemma assert_belongs_raises (point : vec) (tolerance : F) :
  exists e, py_assert true (belongs true point tolerance) = Raise e.
Proof.
  destruct point as [| x v].
  - exists IndexError. apply assert_belongs_nil.
  - exists AssertionError. apply assert_belongs_cons.
Qed.

Ltac first_assert_fails :=
  match goal with
  | |- context [py_assert true (belongs true (?x :: ?v) ?t)] =>
      rewrite (assert_belongs_cons x v t); reflexivity
  end.

Lemma extrinsic_to_intrinsic_coords_raises (x : F) (v : vec) :
  extrinsic_to_intrinsic_coords true (x :: v) = Raise AssertionError.
Proof. unfold extrinsic_to_intrinsic_coords. first_assert_fails. Qed.

Lemma projection_to_tangent_space_raises (x : F) (v vector : vec) :
  projection_to_tangent_space true (x :: v) vector = Raise AssertionError.
Proof. unfold projection_to_tangent_space. first_assert_fails. Qed.

Lemma riemannian_exp_raises (x : F) (v vector : vec) (epsilon : F) :
  riemannian_exp true (x :: v) vector epsilon = Raise AssertionError.
Proof. unfold riemannian_exp. first_assert_fails. Qed.

Lemma riemannian_dist_raises (x : F) (v point_b : vec) :
  riemannian_dist true (x :: v) point_b = Raise AssertionError.
Proof. unfold riemannian_dist. first_assert_fails. Qed.

Lemma riemannian_log_raises (x : F) (v point : vec) (epsilon : F) :
  riemannian_log true (x :: v) point epsilon = Raise AssertionError.
Proof. unfold riemannian_log. first_assert_fails. Qed.

(** On the array without entries the first assertion fails earlier, in
    [vector[0]]. *)
Lemma guarded_by_assert_never_returns {A : Type} (point : vec)
      (k : result A) :
  exists e, (py_assert true (belongs true point TOLERANCE) ;;; k) = Raise e.
Proof.
  destruct (assert_belongs_raises point TOLERANCE) as [e He].
  exists e. now rewrite He.
Qed.
End AnyBackend.
End HyperbolicFacts.

(** C2, as amended: in the default interpreter mode ([__debug__] true),
    [belongs] has no [return], so a call that does not raise evaluates to
    [None], and every operation that starts with [assert self.belongs(...)]
    raises [AssertionError] on every point of at least one coordinate
    (an array [x0 :: rest]), whether the membership invariant holds or
    not, for every vector, threshold and numeric backend; on the array
    without entries it raises [IndexError] instead; on no input at all
    does such an operation return a value. *)
Theorem membership_preconditions_always_raise
  (F : Type) (SF : Scalar F) (EF : Elementary F) :
  (forall (point : vec) (tolerance : F) (v : pyval),
      HyperbolicSpace.belongs true point tolerance = Ok v -> v = PyNone)
  /\ (forall (x0 : F) (rest : vec),
      HyperbolicSpace.extrinsic_to_intrinsic_coords true (x0 :: rest)
      = Raise AssertionError)
  /\ (forall (x0 : F) (rest vector : vec),
      HyperbolicSpace.projection_to_tangent_space true (x0 :: rest) vector
      = Raise AssertionError)
  /\ (forall (x0 : F) (rest vector : vec) (epsilon : F),
      HyperbolicSpace.riemannian_exp true (x0 :: rest) vector epsilon
      = Raise AssertionError)
  /\ (forall (x0 : F) (rest point : vec) (epsilon : F),
      HyperbolicSpace.riemannian_log true (x0 :: rest) point epsilon
      = Raise AssertionError)
  /\ (forall (x0 : F) (rest point_b : vec),
      HyperbolicSpace.riemannian_dist true (x0 :: rest) point_b
      = Raise AssertionError)
  /\ (forall (other : vec) (epsilon : F),
      HyperbolicSpace.extrinsic_to_intrinsic_coords true (F := F) []
      = Raise IndexError
      /\ HyperbolicSpace.projection_to_tangent_space true [] other
         = Raise IndexError
      /\ HyperbolicSpace.riemannian_exp true [] other epsilon
         = Raise IndexError
      /\ HyperbolicSpace.riemannian_log true [] other epsilon
         = Raise IndexError
      /\ HyperbolicSpace.riemannian_dist true [] other = Raise IndexError)
  /\ (forall (point other : vec) (epsilon : F),
      (exists e, HyperbolicSpace.extrinsic_to_intrinsic_coords true point
                 = Raise e)
      /\ (exists e, HyperbolicSpace.projection_to_tangent_space
                      true point other = Raise e)
      /\ (exists e, HyperbolicSpace.riemannian_exp true point other epsilon
                    = Raise e)
      /\ (exists e, HyperbolicSpace.riemannian_log true point other epsilon
                    = Raise e)
      /\ (exists e, HyperbolicSpace.riemannian_dist true point other
                    = Raise e)).
Proof.
  split; [| split; [| split; [| split; [| split; [| split; [| split]]]]]].
  - intros point tolerance v.
    apply HyperbolicFacts.belongs_returns_None.
  - apply HyperbolicFacts.extrinsic_to_intrinsic_coords_raises.
  - apply HyperbolicFacts.projection_to_tangent_space_raises.
  - apply HyperbolicFacts.riemannian_exp_raises.
  - apply HyperbolicFacts.riemannian_log_raises.
  - apply HyperbolicFacts.riemannian_dist_raises.
  - intros other epsilon. repeat split; reflexivity.
  - intros point other epsilon.
    repeat split; apply HyperbolicFacts.guarded_by_assert_never_returns.
Qed.

(** On [np.array([])] the five guarded operations raise [IndexError], not
    [AssertionError]: [belongs] fails in [vector[0]] before its own
    assertion, and the caller's, is reached. *)
Lemma empty_point_raises_index_error :
  HyperbolicSpace.extrinsic_to_intrinsic_coords true (F := R) []
  = Raise IndexError
  /\ HyperbolicSpace.projection_to_tangent_space true (F := R) [] []
     = Raise IndexError
  /\ HyperbolicSpace.riemannian_exp
       true (F := R) [] [] HyperbolicSpace.EPSILON
     = Raise IndexError
  /\ HyperbolicSpace.riemannian_log
       true (F := R) [] [] HyperbolicSpace.EPSILON
     = Raise IndexError
  /\ HyperbolicSpace.riemannian_dist true (F := R) [] []
     = Raise IndexError
  /\ HyperbolicSpace.riemannian_dist true (F := R) [] []
     <> Raise AssertionError.
Proof. repeat split; try reflexivity. discriminate. Qed.

(** ** Coordinates, for every backend *)

Module CoordinateFacts.
Import HyperbolicSpace.
Section AnyBackend.
Context {F : Type} `{Scalar F} `{Elementary F}.
Local Open Scope fl_scope.

Lemma slice_whole (v : list F) : slice v 0 (length v) = v.
Proof.
  unfold slice. rewrite Nat.sub_0_r. simpl skipn. apply firstn_all.
Qed.

Lemma length_slice_tail_of_zeros (d : nat) :
  length (slice (np_zeros (F := F) (S d)) 1 (S d)) = d.
Proof.
  unfold slice, np_zeros. simpl repeat. simpl skipn.
  replace (S d - 1)%nat with d by lia.
  rewrite firstn_all2 by (rewrite repeat_length; lia).
  apply repeat_length.
Qed.

Lemma set_slice_tail_of_zeros (w : list F) :
  set_slice (np_zeros (length w + 1)) 1 (length w + 1) w = Ok (#0 :: w).
Proof.
  unfold set_slice. rewrite Nat.add_1_r, length_slice_tail_of_zeros.
  rewrite Nat.eqb_refl. unfold np_zeros. cbn.
  rewrite skipn_all2 by (rewrite repeat_length; lia).
  now rewrite app_nil_r.
Qed.

Lemma intrinsic_to_extrinsic_coords_value (point_intrinsic : list F) :
  intrinsic_to_extrinsic_coords point_intrinsic
  = Ok (fsqrt (#1 + dot_sum point_intrinsic point_intrinsic)
        :: point_intrinsic).
Proof.
  unfold intrinsic_to_extrinsic_coords.
  rewrite slice_whole, set_slice_tail_of_zeros, bind_Ok.
  rewrite HyperbolicFacts.np_dot_self, bind_Ok.
  reflexivity.
Qed.
End AnyBackend.
End CoordinateFacts.

(** ** Exact real arithmetic *)

Module RealFacts.
Import HyperbolicSpace.
Local Open Scope R_scope.

Lemma Rltb_lt (x y : R) : Rltb x y = true <-> x < y.
Proof. unfold Rltb. destruct (Rlt_dec x y); split; (easy || lra). Qed.

Lemma Rltb_ge (x y : R) : Rltb x y = false <-> y <= x.
Proof. unfold Rltb. destruct (Rlt_dec x y); split; (easy || lra). Qed.

Lemma Rleb_le (x y : R) : Rleb x y = true <-> x <= y.
Proof. unfold Rleb. destruct (Rle_dec x y); split; (easy || lra). Qed.

Lemma Rleb_gt (x y : R) : Rleb x y = false <-> y < x.
Proof. unfold Rleb. destruct (Rle_dec x y); split; (easy || lra). Qed.

Lemma Reqb_eq (x y : R) : Reqb x y = true <-> x = y.
Proof. unfold Reqb. destruct (Req_dec_T x y); split; (easy || lra). Qed.

Lemma Reqb_neq (x y : R) : Reqb x y = false <-> x <> y.
Proof. unfold Reqb. destruct (Req_dec_T x y); split; easy. Qed.

Lemma dot_sum_self_nonneg (v : list R) : 0 <= dot_sum v v.
Proof.
  induction v as [| x v IH]; simpl.
  - lra.
  - pose proof (Rle_0_sqr x) as Hx. unfold Rsqr in Hx. lra.
Qed.

Lemma dot_sum_comm (a b : list R) : dot_sum a b = dot_sum b a.
Proof.
  revert b. induction a as [| x a IH]; intros [| y b]; simpl; try reflexivity.
  rewrite (IH b). lra.
Qed.

Lemma dot_sum_zip_minus (p v w : list R) :
  length v = length w ->
  dot_sum p (zip_with Rminus v w) = dot_sum p v - dot_sum p w.
Proof.
  revert v w. induction p as [| x p IH]; intros v w Hl.
  - simpl. lra.
  - destruct v as [| y v], w as [| z w]; simpl in *; try discriminate.
    + lra.
    + rewrite IH by lia. lra.
Qed.

Lemma dot_sum_zip_plus (p v w : list R) :
  length v = length w ->
  dot_sum p (zip_with Rplus v w) = dot_sum p v + dot_sum p w.
Proof.
  revert v w. induction p as [| x p IH]; intros v w Hl.
  - simpl. lra.
  - destruct v as [| y v], w as [| z w]; simpl in *; try discriminate.
    + lra.
    + rewrite IH by lia. lra.
Qed.

Lemma dot_sum_smul (p q : list R) (c : R) :
  dot_sum p (smul c q) = c * dot_sum p q.
Proof.
  revert q. induction p as [| x p IH]; intros [| y q]; simpl; try lra.
  rewrite IH. lra.
Qed.

Lemma dot_sum_sdiv (p q : list R) (s : R) :
  dot_sum p (sdiv q s) = dot_sum p q / s.
Proof.
  revert q. induction p as [| x p IH]; intros [| y q]; simpl;
    try (unfold Rdiv; lra).
  rewrite IH. unfold Rdiv. lra.
Qed.
End RealFacts.

Module HyperbolicReal.
Import HyperbolicSpace.
Local Open Scope R_scope.

Lemma TOLERANCE_value : TOLERANCE (F := R) = 1 / 10 ^ 12.
Proof. unfold TOLERANCE. simpl. f_equal. lra. Qed.

Lemma EPSILON_value : EPSILON (F := R) = 1 / 10 ^ 6.
Proof. unfold EPSILON. simpl. f_equal. lra. Qed.

Lemma TOLERANCE_pos : 0 < TOLERANCE (F := R).
Proof.
  unfold TOLERANCE. simpl. apply Rdiv_lt_0_compat; lra.
Qed.

(** The squared norm of a point [x :: v], as a real number. *)
Lemma embedding_squared_norm_real (x : R) (v : list R) :
  embedding_squared_norm (x :: v) = Ok (dot_sum v v - x * x).
Proof.
  rewrite HyperbolicFacts.embedding_squared_norm_cons.
  f_equal. simpl. lra.
Qed.

Lemma belongs_real (debug : bool) (point : list R) (tolerance n : R) :
  embedding_squared_norm point = Ok n ->
  belongs debug point tolerance
  = if debug
    then if Rltb (Rabs (n + 1)) tolerance
         then Ok PyNone else Raise AssertionError
    else Ok PyNone.
Proof.
  destruct point as [| x v]; [discriminate |].
  rewrite HyperbolicFacts.embedding_squared_norm_cons.
  intros Hn. injection Hn as <-.
  now rewrite HyperbolicFacts.belongs_cons.
Qed.

(** A point with squared norm exactly [-1] passes [belongs]. *)
Lemma belongs_on_hyperboloid (point : list R) :
  embedding_squared_norm point = Ok (-1) ->
  belongs true point TOLERANCE = Ok PyNone.
Proof.
  intros Hn. rewrite (belongs_real true point TOLERANCE Hn).
  replace (-1 + 1) with 0 by lra. rewrite Rabs_R0.
  now rewrite (proj2 (RealFacts.Rltb_lt _ _) TOLERANCE_pos).
Qed.

Lemma extrinsic_squared_norm (p : list R) :
  embedding_squared_norm (sqrt (1 + dot_sum p p) :: p) = Ok (-1).
Proof.
  rewrite embedding_squared_norm_real. f_equal.
  pose proof (RealFacts.dot_sum_self_nonneg p) as Hp.
  rewrite sqrt_sqrt by lra. lra.
Qed.
End HyperbolicReal.

(** C9: in the default interpreter mode, for a point whose Minkowski
    squared norm is [n], [belongs] raises [AssertionError] exactly when
    [|n + 1| >= tolerance] and returns (the value [None]) exactly when
    [|n + 1| < tolerance]; the default tolerance is [1e-12]; a call that
    returns hands back [None] and no corrected point. *)
Theorem belongs_raises_iff_outside_tolerance
  (point : list R) (tolerance n : R) :
  HyperbolicSpace.embedding_squared_norm point = Ok n ->
  (HyperbolicSpace.belongs true point tolerance = Raise AssertionError
   <-> (tolerance <= Rabs (n + 1))%R)
  /\ (HyperbolicSpace.belongs true point tolerance = Ok PyNone
      <-> (Rabs (n + 1) < tolerance)%R)
  /\ (forall v, HyperbolicSpace.belongs true point tolerance = Ok v
                -> v = PyNone)
  /\ HyperbolicSpace.TOLERANCE (F := R) = (1 / 10 ^ 12)%R.
Proof.
  intros Hn.
  rewrite (HyperbolicReal.belongs_real true point tolerance Hn).
  destruct (Rltb (Rabs (n + 1)) tolerance) eqn:E.
  - apply RealFacts.Rltb_lt in E.
    repeat split; try easy; try lra.
    + intros v Hv. now inversion Hv.
    + apply HyperbolicReal.TOLERANCE_value.
  - apply RealFacts.Rltb_ge in E.
    repeat split; try easy; try lra.
    apply HyperbolicReal.TOLERANCE_value.
Qed.

(** The point [1, 0, 0] has squared norm [-1] and passes the default
    tolerance. *)
Lemma belongs_raises_iff_outside_tolerance_witness :
  HyperbolicSpace.belongs true [1; 0; 0]%R HyperbolicSpace.TOLERANCE
  = Ok PyNone.
Proof.
  assert (Hn : HyperbolicSpace.embedding_squared_norm [1; 0; 0]%R
               = Ok (-1)%R).
  { rewrite HyperbolicReal.embedding_squared_norm_real.
    f_equal. simpl. lra. }
  apply (belongs_raises_iff_outside_tolerance
           [1; 0; 0]%R HyperbolicSpace.TOLERANCE Hn).
  replace (-1 + 1)%R with 0%R by lra. rewrite Rabs_R0.
  apply HyperbolicReal.TOLERANCE_pos.
Defined.

(** C8: [intrinsic_to_extrinsic_coords] returns, for every vector [p] of
    reals, the vector of one more coordinate [sqrt (1 + p.p) :: p]; its
    Minkowski squared norm is [-1] in exact arithmetic, so that [belongs]
    does not raise on it; the intrinsic point [0, 0] is sent to
    [1, 0, 0]. *)
Theorem intrinsic_to_extrinsic_on_hyperboloid (p : list R) :
  HyperbolicSpace.intrinsic_to_extrinsic_coords p
  = Ok (sqrt (1 + dot_sum p p) :: p)
  /\ length (sqrt (1 + dot_sum p p) :: p) = S (length p)
  /\ HyperbolicSpace.embedding_squared_norm (sqrt (1 + dot_sum p p) :: p)
     = Ok (-1)%R
  /\ HyperbolicSpace.belongs true (sqrt (1 + dot_sum p p) :: p)
       HyperbolicSpace.TOLERANCE = Ok PyNone
  /\ HyperbolicSpace.intrinsic_to_extrinsic_coords [0; 0]%R
     = Ok [1; 0; 0]%R.
Proof.
  repeat split.
  - rewrite CoordinateFacts.intrinsic_to_extrinsic_coords_value.
    reflexivity.
  - apply HyperbolicReal.extrinsic_squared_norm.
  - apply HyperbolicReal.belongs_on_hyperboloid,
      HyperbolicReal.extrinsic_squared_norm.
  - rewrite CoordinateFacts.intrinsic_to_extrinsic_coords_value.
    do 2 f_equal. simpl.
    replace (1 + (0 * 0 + (0 * 0 + 0)))%R with 1%R by lra.
    apply sqrt_1.
Qed.

(** ** Valid points on which the guarded operations raise *)

Module FailingInputs.
Import HyperbolicSpace SamplePoints.
Local Open Scope R_scope.

Lemma origin_belongs : belongs true origin TOLERANCE = Ok PyNone.
Proof.
  apply HyperbolicReal.belongs_on_hyperboloid. unfold origin.
  rewrite HyperbolicReal.embedding_squared_norm_real.
  f_equal. simpl. lra.
Qed.

Lemma boosted_belongs : belongs true boosted TOLERANCE = Ok PyNone.
Proof.
  apply HyperbolicReal.belongs_on_hyperboloid. unfold boosted.
  rewrite HyperbolicReal.embedding_squared_norm_real.
  f_equal. simpl. lra.
Qed.
End FailingInputs.

(** ** The general linear group *)

Module GeneralLinearFacts.
Section Laws.
Context {F : Type} {SF : Scalar F}.
Local Open Scope fl_scope.

Variable M : Type.
Variable n : nat.
Variable gs_eye : nat -> nat -> M.
Variable det : M -> F.
Variable inv : M -> result M.
Variables expm logm : M -> M.
Variable mul : M -> M -> M.
Variable scale : F -> M -> M.
Variable zeros : M.

Local Abbreviation identity := (GeneralLinear.identity n gs_eye).
Local Abbreviation invertible := (GeneralLinear.invertible det).
Local Abbreviation base_invertible := (GeneralLinear.base_invertible det).
Local Abbreviation exp := (GeneralLinear.exp inv expm mul).
Local Abbreviation log := (GeneralLinear.log inv logm mul).
Local Abbreviation orbit := (GeneralLinear.orbit inv expm logm mul scale).
Local Abbreviation base_or_identity := (GeneralLinear.base_or_identity n gs_eye).

(** What the class assumes of the backend and of [Matrices.mul]: the laws
    of the group of invertible matrices, and a matrix exponential that
    inverts the matrix logarithm on it. *)
Hypothesis mul_assoc : forall a b c, mul a (mul b c) = mul (mul a b) c.
Hypothesis mul_identity_r : forall a, mul a identity = a.
Hypothesis mul_identity_l : forall a, mul identity a = a.
Hypothesis inv_invertible :
  forall a, invertible a ->
            exists a', inv a = Ok a'
                       /\ mul a' a = identity /\ mul a a' = identity.
Hypothesis invertible_mul :
  forall a b, invertible a -> invertible b -> invertible (mul a b).
Hypothesis invertible_inv :
  forall a a', invertible a -> inv a = Ok a' -> invertible a'.
Hypothesis expm_logm : forall a, invertible a -> expm (logm a) = a.
Hypothesis expm_zeros : expm zeros = identity.
Hypothesis mul_zeros_r : forall a, mul a zeros = zeros.
Hypothesis scale_0 : forall a, scale #0 a = zeros.
Hypothesis scale_1 : forall a, scale #1 a = a.

Lemma exp_of_log (point : M) (base_point : option M) (tangent_vec : M) :
  invertible point ->
  base_invertible base_point ->
  log point base_point = Ok tangent_vec ->
  exp tangent_vec base_point = Ok point.
Proof.
  destruct base_point as [b |]; simpl; intros Hp Hb Hlog.
  - destruct (inv_invertible Hb) as [b' [Hinv [Hl Hr]]].
    pose proof (invertible_mul (invertible_inv Hb Hinv) Hp) as Hdom.
    unfold GeneralLinear.inv in *. rewrite Hinv in *. simpl in *.
    injection Hlog as <-.
    rewrite mul_assoc, Hl, mul_identity_l.
    rewrite expm_logm by exact Hdom.
    now rewrite mul_assoc, Hr, mul_identity_l.
  - injection Hlog as <-. now rewrite expm_logm.
Qed.

Lemma log_returns (point : M) (base_point : option M) :
  base_invertible base_point ->
  exists tangent_vec, log point base_point = Ok tangent_vec.
Proof.
  destruct base_point as [b |]; simpl; intros Hb.
  - destruct (inv_invertible Hb) as [b' [Hinv _]].
    unfold GeneralLinear.inv. rewrite Hinv. simpl. eauto.
  - eauto.
Qed.

Lemma exp_of_zeros (base_point : option M) (tangent_vec : M) :
  base_invertible base_point ->
  exp (scale #0 tangent_vec) base_point = Ok (base_or_identity base_point).
Proof.
  destruct base_point as [b |]; simpl; intros Hb.
  - destruct (inv_invertible Hb) as [b' [Hinv _]].
    unfold GeneralLinear.inv. rewrite Hinv. simpl.
    now rewrite scale_0, mul_zeros_r, expm_zeros, mul_identity_r.
  - now rewrite scale_0, expm_zeros.
Qed.

(** C6: for a backend whose matrix product and inverse obey the group
    laws and whose [expm] inverts its [logm] on the invertible matrices,
    [exp] after [log] at the same base point returns the point, for every
    invertible point and every invertible base point, and for every
    invertible point when the base point is omitted. *)
Theorem exp_of_log_recovers_point (point : M) (base_point : option M) :
  invertible point ->
  base_invertible base_point ->
  (tangent_vec <- log point base_point ;; exp tangent_vec base_point)
  = Ok point.
Proof.
  intros Hp Hb.
  destruct (log_returns point base_point Hb) as [tangent_vec Hlog].
  rewrite Hlog, bind_Ok.
  now apply exp_of_log with (point := point).
Qed.

End Laws.
End GeneralLinearFacts.

(** *** The group laws hold in GL(1) over the real numbers *)

Module GL1Facts.
Local Open Scope R_scope.

Lemma gl1_identity_value : GeneralLinear.identity 1 GL1.eye = 1.
Proof. reflexivity. Qed.

Lemma gl1_invertible_nonzero (x : R) :
  GeneralLinear.invertible GL1.det x <-> x <> 0.
Proof.
  unfold GeneralLinear.invertible, GeneralLinear.belongs,
    GeneralLinear.gs_where, GL1.det. simpl.
  destruct (Reqb x 0) eqn:E; simpl.
  - apply RealFacts.Reqb_eq in E. split; [discriminate | contradiction].
  - apply RealFacts.Reqb_neq in E. split; [now intros _ | reflexivity].
Qed.

Lemma gl1_mul_assoc (a b c : R) :
  GL1.mul a (GL1.mul b c) = GL1.mul (GL1.mul a b) c.
Proof. unfold GL1.mul. ring. Qed.

Lemma gl1_mul_identity_r (a : R) :
  GL1.mul a (GeneralLinear.identity 1 GL1.eye) = a.
Proof. rewrite gl1_identity_value. unfold GL1.mul. ring. Qed.

Lemma gl1_mul_identity_l (a : R) :
  GL1.mul (GeneralLinear.identity 1 GL1.eye) a = a.
Proof. rewrite gl1_identity_value. unfold GL1.mul. ring. Qed.

Lemma gl1_inv_nonzero (a : R) : a <> 0 -> GL1.linalg_inv a = Ok (/ a).
Proof.
  intros Ha. unfold GL1.linalg_inv.
  now rewrite (proj2 (RealFacts.Reqb_neq a 0) Ha).
Qed.

Lemma gl1_inv_invertible (a : R) :
  GeneralLinear.invertible GL1.det a ->
  exists a', GL1.linalg_inv a = Ok a'
             /\ GL1.mul a' a = GeneralLinear.identity 1 GL1.eye
             /\ GL1.mul a a' = GeneralLinear.identity 1 GL1.eye.
Proof.
  intros Ha. apply gl1_invertible_nonzero in Ha.
  exists (/ a). rewrite gl1_identity_value. unfold GL1.mul.
  repeat split; [now apply gl1_inv_nonzero | now field | now field].
Qed.

Lemma gl1_expm_zeros : GL1.expm GL1.zeros = GeneralLinear.identity 1 GL1.eye.
Proof. apply exp_0. Qed.

Lemma gl1_mul_zeros_r (a : R) : GL1.mul a GL1.zeros = GL1.zeros.
Proof. unfold GL1.mul, GL1.zeros. ring. Qed.

Lemma gl1_scale_0 (a : R) : GL1.scale (of_Z 0) a = GL1.zeros.
Proof. unfold GL1.scale, GL1.zeros. simpl. ring. Qed.

Lemma gl1_scale_1 (a : R) : GL1.scale (of_Z 1) a = a.
Proof. unfold GL1.scale. simpl. ring. Qed.

End GL1Facts.

(** *** The laws hold for the matrices [[a, -b], [b, a]] *)

Module SimilarityFacts.
Import Similarity.
Local Open Scope R_scope.

Lemma identity_value : GeneralLinear.identity 2 eye = (1, 0).
Proof. reflexivity. Qed.

Lemma det_nonneg (z : mat) : 0 <= det z.
Proof. unfold det. nra. Qed.

Lemma invertible_nonzero (z : mat) :
  GeneralLinear.invertible det z <-> det z <> 0.
Proof.
  unfold GeneralLinear.invertible, GeneralLinear.belongs,
    GeneralLinear.gs_where. simpl.
  destruct (Reqb (det z) 0) eqn:E; simpl.
  - apply RealFacts.Reqb_eq in E. split; [discriminate | contradiction].
  - apply RealFacts.Reqb_neq in E. split; [now intros _ | reflexivity].
Qed.

Lemma sim_mul_assoc (a b c : mat) : mul a (mul b c) = mul (mul a b) c.
Proof. unfold mul. simpl. f_equal; ring. Qed.

Lemma sim_mul_identity_r (a : mat) :
  mul a (GeneralLinear.identity 2 eye) = a.
Proof.
  rewrite identity_value. destruct a as [x y]. unfold mul. simpl.
  f_equal; ring.
Qed.

Lemma sim_mul_identity_l (a : mat) :
  mul (GeneralLinear.identity 2 eye) a = a.
Proof.
  rewrite identity_value. destruct a as [x y]. unfold mul. simpl.
  f_equal; ring.
Qed.

Lemma inv_nonzero (a : mat) :
  det a <> 0 -> linalg_inv a = Ok (fst a / det a, - snd a / det a).
Proof.
  intros Ha. unfold linalg_inv.
  now rewrite (proj2 (RealFacts.Reqb_neq (det a) 0) Ha).
Qed.

Lemma sim_inv_invertible (a : mat) :
  GeneralLinear.invertible det a ->
  exists a', linalg_inv a = Ok a'
             /\ mul a' a = GeneralLinear.identity 2 eye
             /\ mul a a' = GeneralLinear.identity 2 eye.
Proof.
  intros Ha. apply invertible_nonzero in Ha.
  eexists. split; [now apply inv_nonzero |].
  rewrite identity_value. destruct a as [x y].
  unfold mul, det in *. simpl in *.
  split; f_equal; field; exact Ha.
Qed.

Lemma det_mul (a b : mat) : det (mul a b) = det a * det b.
Proof. unfold det, mul. simpl. ring. Qed.

Lemma sim_invertible_mul (a b : mat) :
  GeneralLinear.invertible det a ->
  GeneralLinear.invertible det b ->
  GeneralLinear.invertible det (mul a b).
Proof.
  rewrite !invertible_nonzero, det_mul. intros Ha Hb.
  now apply Rmult_integral_contrapositive.
Qed.

Lemma sim_invertible_inv (a a' : mat) :
  GeneralLinear.invertible det a ->
  linalg_inv a = Ok a' ->
  GeneralLinear.invertible det a'.
Proof.
  rewrite !invertible_nonzero. intros Ha Hinv.
  rewrite (inv_nonzero Ha) in Hinv. injection Hinv as <-.
  destruct a as [x y]. unfold det in *. simpl in *.
  replace (x / (x * x + y * y) * (x / (x * x + y * y))
           + - y / (x * x + y * y) * (- y / (x * x + y * y)))
    with (/ (x * x + y * y)) by (field; exact Ha).
  now apply Rinv_neq_0_compat.
Qed.

Lemma modulus_pos (z : mat) : det z <> 0 -> 0 < modulus z.
Proof.
  intros Hz. unfold modulus. apply sqrt_lt_R0.
  pose proof (det_nonneg z). lra.
Qed.

Lemma modulus_square (z : mat) : modulus z * modulus z = det z.
Proof. unfold modulus. apply sqrt_sqrt, det_nonneg. Qed.

Lemma cos_angle (z : mat) :
  det z <> 0 -> modulus z * cos (angle z) = fst z.
Proof.
  intros Hz. pose proof (modulus_pos Hz) as Hr.
  pose proof (modulus_square z) as Hrr.
  assert (Hu : -1 <= fst z / modulus z <= 1).
  { assert (Hx : fst z * fst z <= modulus z * modulus z)
      by (rewrite Hrr; unfold det; nra).
    split.
    - apply Rmult_le_reg_r with (modulus z); [exact Hr |].
      unfold Rdiv. rewrite Rmult_assoc, Rinv_l by lra. nra.
    - apply Rmult_le_reg_r with (modulus z); [exact Hr |].
      unfold Rdiv. rewrite Rmult_assoc, Rinv_l by lra. nra. }
  unfold angle. destruct (Rleb 0 (snd z)); rewrite ?cos_neg, cos_acos
    by exact Hu; field; lra.
Qed.

Lemma sin_angle (z : mat) :
  det z <> 0 -> modulus z * sin (angle z) = snd z.
Proof.
  intros Hz. pose proof (modulus_pos Hz) as Hr.
  pose proof (modulus_square z) as Hrr.
  assert (Hx : fst z * fst z <= modulus z * modulus z)
    by (rewrite Hrr; unfold det; nra).
  assert (Hu : -1 <= fst z / modulus z <= 1).
  { split.
    - apply Rmult_le_reg_r with (modulus z); [exact Hr |].
      unfold Rdiv. rewrite Rmult_assoc, Rinv_l by lra. nra.
    - apply Rmult_le_reg_r with (modulus z); [exact Hr |].
      unfold Rdiv. rewrite Rmult_assoc, Rinv_l by lra. nra. }
  assert (Hs : sqrt (1 - (fst z / modulus z)²)
               = Rabs (snd z) / modulus z).
  { replace (1 - (fst z / modulus z)²) with ((snd z / modulus z)²).
    - rewrite sqrt_Rsqr_abs. unfold Rdiv. rewrite Rabs_mult.
      f_equal. apply Rabs_right. left. now apply Rinv_0_lt_compat.
    - unfold Rsqr. unfold det in Hrr.
      apply Rmult_eq_reg_r with (modulus z * modulus z); [| nra].
      transitivity (snd z * snd z); [field; lra |].
      transitivity (modulus z * modulus z - fst z * fst z); [lra |].
      field. lra. }
  unfold angle. destruct (Rleb 0 (snd z)) eqn:E.
  - apply RealFacts.Rleb_le in E.
    rewrite sin_acos by exact Hu. rewrite Hs, Rabs_right by lra.
    field. lra.
  - apply RealFacts.Rleb_gt in E.
    rewrite sin_neg, sin_acos by exact Hu. rewrite Hs, Rabs_left by lra.
    field. lra.
Qed.

Lemma sim_expm_logm (a : mat) :
  GeneralLinear.invertible det a -> expm (logm a) = a.
Proof.
  intros Ha. apply invertible_nonzero in Ha.
  unfold expm, logm. simpl.
  rewrite exp_ln by now apply modulus_pos.
  rewrite (cos_angle Ha), (sin_angle Ha). now destruct a.
Qed.

Lemma sim_expm_zeros : expm zeros = GeneralLinear.identity 2 eye.
Proof.
  rewrite identity_value. unfold expm, zeros. simpl.
  rewrite exp_0, cos_0, sin_0. f_equal; ring.
Qed.

Lemma sim_mul_zeros_r (a : mat) : mul a zeros = zeros.
Proof. unfold mul, zeros. simpl. f_equal; ring. Qed.

Lemma sim_scale_0 (a : mat) : scale (of_Z 0) a = zeros.
Proof. unfold scale, zeros. simpl. f_equal; ring. Qed.

Lemma sim_scale_1 (a : mat) : scale (of_Z 1) a = a.
Proof. destruct a as [x y]. unfold scale. simpl. f_equal; ring. Qed.

Lemma minus_six_invertible : GeneralLinear.invertible det minus_six.
Proof. apply invertible_nonzero. unfold det, minus_six. simpl. lra. Qed.

Lemma quarter_turn_invertible :
  GeneralLinear.base_invertible det (Some quarter_turn).
Proof. apply invertible_nonzero. unfold det, quarter_turn. simpl. lra. Qed.
End SimilarityFacts.

(** From the rotation by a right angle as base point to the matrix
    [-6 I], which has no real logarithm of shape [1, 1], and back. *)
Lemma exp_of_log_recovers_point_witness :
  (tangent_vec <- Similarity.group_log
                    Similarity.minus_six (Some Similarity.quarter_turn) ;;
   Similarity.group_exp tangent_vec (Some Similarity.quarter_turn))
  = Ok Similarity.minus_six.
Proof.
  apply (@GeneralLinearFacts.exp_of_log_recovers_point
           R R_scalar Similarity.mat 2%nat Similarity.eye Similarity.det
           Similarity.linalg_inv Similarity.expm Similarity.logm
           Similarity.mul
           SimilarityFacts.sim_mul_assoc SimilarityFacts.sim_mul_identity_l
           SimilarityFacts.sim_inv_invertible
           SimilarityFacts.sim_invertible_mul
           SimilarityFacts.sim_invertible_inv
           SimilarityFacts.sim_expm_logm
           Similarity.minus_six (Some Similarity.quarter_turn)).
  - exact SimilarityFacts.minus_six_invertible.
  - exact SimilarityFacts.quarter_turn_invertible.
Defined.



Module BelongsFacts.
Lemma belongs_one (M : Type) (det : M -> R) (m : M) :
  GeneralLinear.belongs det (One m) = One (negb (Reqb (det m) 0)).
Proof.
  unfold GeneralLinear.belongs, GeneralLinear.gs_where. simpl.
  now destruct (Reqb (det m) 0).
Qed.

Lemma belongs_many (M : Type) (det : M -> R) (l : list M) :
  GeneralLinear.belongs det (Many l)
  = Many (map (fun m => negb (Reqb (det m) 0)) l).
Proof.
  unfold GeneralLinear.belongs, GeneralLinear.gs_where. simpl.
  f_equal. rewrite !map_map. apply map_ext.
  intros m. now destruct (Reqb (det m) 0).
Qed.

Lemma list_det_zero_matrix_2 :
  list_det (F := R) (zero_matrix 2 2) = 0%R.
Proof. unfold list_det, zero_matrix. simpl. lra. Qed.
End BelongsFacts.

(** C10: [belongs] of the general linear group returns booleans and does
    not raise: for a matrix, [True] exactly when the backend's determinant
    of it is not zero, and for a batch of matrices the list of these
    answers, one per matrix; on the 2 x 2 zero matrix, with the determinant
    by cofactor expansion, the answer is [False]. *)
Theorem general_linear_belongs_is_nonzero_determinant
  (M : Type) (det : M -> R) :
  (forall point : batched M,
      GeneralLinear.belongs det point
      = bmap (fun m => negb (Reqb (det m) 0)) point)
  /\ (forall m : M,
        GeneralLinear.belongs det (One m) = One true <-> det m <> 0%R)
  /\ (forall m : M,
        GeneralLinear.belongs det (One m) = One false <-> det m = 0%R)
  /\ (forall l : list M,
        GeneralLinear.belongs det (Many l)
        = Many (map (fun m => negb (Reqb (det m) 0)) l))
  /\ GeneralLinear.belongs (list_det (F := R)) (One (zero_matrix 2 2))
     = One false
  /\ GeneralLinear.belongs (list_det (F := Q))
       (Many [zero_matrix 2 2; [[1; 2]; [3; 4]]%Q])
     = Many [false; true].
Proof.
  split; [| split; [| split; [| split; [| split]]]].
  - intros [m | l].
    + apply BelongsFacts.belongs_one.
    + apply BelongsFacts.belongs_many.
  - intros m. rewrite BelongsFacts.belongs_one.
    destruct (Reqb (det m) 0) eqn:E; simpl.
    + apply RealFacts.Reqb_eq in E. split; [discriminate | contradiction].
    + apply RealFacts.Reqb_neq in E. split; [now intros _ | reflexivity].
  - intros m. rewrite BelongsFacts.belongs_one.
    destruct (Reqb (det m) 0) eqn:E; simpl.
    + apply RealFacts.Reqb_eq in E. split; [now intros _ | reflexivity].
    + apply RealFacts.Reqb_neq in E. split; [discriminate | contradiction].
  - apply BelongsFacts.belongs_many.
  - rewrite BelongsFacts.belongs_one, BelongsFacts.list_det_zero_matrix_2.
    now rewrite (proj2 (RealFacts.Reqb_eq 0 0) eq_refl).
  - vm_compute. reflexivity.
Qed.

(** ** The computations behind the assertions

    With [__debug__] false the [assert] statements are not executed, and
    the operations of the hyperbolic space compute what their docstrings
    describe.  The statements are over the real numbers. *)

Module Unchecked.
Import HyperbolicSpace.
Local Open Scope R_scope.

Lemma length_zip_with (op : R -> R -> R) (a b : list R) :
  length a = length b -> length (zip_with op a b) = length a.
Proof.
  revert b. induction a as [| x a IH]; intros [| y b] Hl; simpl in *;
    try discriminate; try reflexivity.
  now rewrite IH by lia.
Qed.

Lemma length_smul (c : R) (v : list R) : length (smul c v) = length v.
Proof. apply length_map. Qed.

Lemma length_sdiv (v : list R) (c : R) : length (sdiv v c) = length v.
Proof. apply length_map. Qed.

Lemma broadcast2_same_length (op : R -> R -> R) (a b : list R) :
  length a = length b -> broadcast2 op a b = Ok (zip_with op a b).
Proof. intros Hl. unfold broadcast2. now rewrite Hl, Nat.eqb_refl. Qed.

(** A Minkowski product that is computed has arguments of one length, with
    a first coordinate. *)
Lemma embedding_inner_product_Ok_inv (a b : list R) (m : R) :
  embedding_inner_product a b = Ok m ->
  exists x a' y b',
    a = x :: a' /\ b = y :: b' /\ length a' = length b'
    /\ m = dot_sum a' b' - x * y.
Proof.
  unfold embedding_inner_product. intros Hm.
  apply bind_Ok_inv in Hm as [d [Hd Hm]].
  pose proof (HyperbolicFacts.np_dot_Ok_length a b Hd) as Hl.
  destruct a as [| x a'], b as [| y b']; try discriminate.
  exists x, a', y, b'. simpl in Hl.
  unfold np_dot in Hd. simpl length in Hd.
  rewrite Hl, Nat.eqb_refl in Hd. injection Hd as <-.
  simpl in Hm. injection Hm as <-.
  repeat split; [lia | simpl; lra].
Qed.

Lemma embedding_inner_product_real (x y : R) (a b : list R) :
  length a = length b ->
  embedding_inner_product (x :: a) (y :: b) = Ok (dot_sum a b - x * y).
Proof.
  intros Hl. rewrite HyperbolicFacts.embedding_inner_product_cons by exact Hl.
  f_equal. simpl. lra.
Qed.

Lemma zip_with_minus_scaled (v p : list R) (c s : R) :
  zip_with Rminus v (sdiv (smul c p) s) = Formulas.projection p v c s.
Proof.
  unfold Formulas.projection. f_equal.
  unfold sdiv, smul. rewrite map_map. apply map_ext.
  intros x. simpl. unfold Rdiv. ring.
Qed.

(** The projection, as the code computes it and as the specification
    writes it. *)
Lemma projection_to_tangent_space_unchecked
      (ref_point vector : list R) (inner_prod sq_norm : R) :
  embedding_inner_product ref_point vector = Ok inner_prod ->
  embedding_squared_norm ref_point = Ok sq_norm ->
  projection_to_tangent_space false ref_point vector
  = Ok (Formulas.projection ref_point vector inner_prod sq_norm).
Proof.
  intros Hip Hsq. unfold projection_to_tangent_space.
  rewrite py_assert_off, Hip, Hsq, !bind_Ok.
  apply embedding_inner_product_Ok_inv in Hip
    as [x [a' [y [b' [-> [-> [Hl _]]]]]]].
  rewrite broadcast2_same_length
    by (rewrite length_sdiv, length_smul; simpl; lia).
  rewrite bind_Ok. f_equal. apply zip_with_minus_scaled.
Qed.

Lemma length_projection (ref_point vector : list R) (c s : R) :
  length ref_point = length vector ->
  length (Formulas.projection ref_point vector c s) = length ref_point.
Proof.
  intros Hl. unfold Formulas.projection.
  rewrite length_zip_with by (rewrite length_map; lia). lia.
Qed.

(** The projection is Minkowski-orthogonal to the reference point. *)
Lemma projection_orthogonal
      (ref_point vector : list R) (inner_prod sq_norm : R) :
  embedding_inner_product ref_point vector = Ok inner_prod ->
  embedding_squared_norm ref_point = Ok sq_norm ->
  sq_norm <> 0 ->
  embedding_inner_product
    ref_point (Formulas.projection ref_point vector inner_prod sq_norm)
  = Ok 0.
Proof.
  intros Hip Hsq Hnz.
  apply embedding_inner_product_Ok_inv in Hip
    as [x [p [y [v [-> [-> [Hl Hip]]]]]]].
  unfold embedding_squared_norm in Hsq.
  apply embedding_inner_product_Ok_inv in Hsq
    as [x' [p' [x'' [p'' [E1 [E2 [_ Hsq]]]]]]].
  injection E1 as <- <-. injection E2 as <- <-.
  unfold Formulas.projection. simpl.
  rewrite embedding_inner_product_real
    by (rewrite length_zip_with; rewrite ?length_map; lia).
  f_equal.
  rewrite RealFacts.dot_sum_zip_minus by (rewrite length_map; lia).
  change (map (fun x0 => inner_prod / sq_norm * x0) p)
    with (smul (inner_prod / sq_norm) p).
  rewrite RealFacts.dot_sum_smul.
  subst inner_prod sq_norm. field. exact Hnz.
Qed.

(** A point that passes [belongs] has a squared norm within the tolerance
    of [-1], which is negative. *)
Lemma belongs_Ok_inv (point : list R) (v : pyval) :
  belongs true point TOLERANCE = Ok v ->
  exists n, embedding_squared_norm point = Ok n
            /\ Rabs (n + 1) < TOLERANCE /\ n < 0.
Proof.
  destruct point as [| x p]; [discriminate |].
  intros Hb.
  rewrite (HyperbolicReal.belongs_real true (x :: p) TOLERANCE
             (HyperbolicReal.embedding_squared_norm_real x p)) in Hb.
  exists (dot_sum p p - x * x).
  split; [apply HyperbolicReal.embedding_squared_norm_real |].
  destruct (Rltb _ _) eqn:E; [| discriminate].
  apply RealFacts.Rltb_lt in E. split; [exact E |].
  rewrite HyperbolicReal.TOLERANCE_value in E.
  apply Rabs_def2 in E. lra.
Qed.

Lemma math_sqrt_nonneg (x : R) : 0 <= x -> math_sqrt x = Ok (sqrt x).
Proof.
  intros Hx. unfold math_sqrt. simpl.
  now rewrite (proj2 (RealFacts.Rltb_ge x 0) Hx).
Qed.

Lemma math_sqrt_negative (x : R) : x < 0 -> math_sqrt x = Raise ValueError.
Proof.
  intros Hx. unfold math_sqrt. simpl.
  now rewrite (proj2 (RealFacts.Rltb_lt x 0) Hx).
Qed.

(** The distance, as the code computes it. *)
Lemma riemannian_dist_unchecked (point_a point_b : list R) (na nb ip : R) :
  embedding_squared_norm point_a = Ok na ->
  embedding_squared_norm point_b = Ok nb ->
  embedding_inner_product point_a point_b = Ok ip ->
  0 <= na * nb ->
  riemannian_dist false point_a point_b
  = Ok (Formulas.clamped_arccosh (- ip / sqrt (na * nb))).
Proof.
  intros Ha Hb Hip Hpos. unfold riemannian_dist.
  rewrite !py_assert_off, Ha, Hb, Hip, !bind_Ok.
  simpl fmul. rewrite (math_sqrt_nonneg Hpos), bind_Ok.
  unfold Formulas.clamped_arccosh. simpl.
  now destruct (Rleb _ 1).
Qed.

(** The distance of a valid point to itself is the clamped value [0]. *)
Lemma riemannian_dist_self_unchecked (point : list R) (v : pyval) :
  belongs true point TOLERANCE = Ok v ->
  riemannian_dist false point point = Ok 0.
Proof.
  intros Hb. apply belongs_Ok_inv in Hb as [n [Hn [_ Hneg]]].
  assert (Hpos : 0 <= n * n) by nra.
  rewrite (riemannian_dist_unchecked point point Hn Hn Hn Hpos).
  f_equal. unfold Formulas.clamped_arccosh.
  replace (n * n) with ((- n) * (- n)) by ring.
  rewrite sqrt_square by lra.
  replace (- n / - n) with 1 by (field; lra).
  now rewrite (proj2 (RealFacts.Rleb_le 1 1) (Rle_refl 1)).
Qed.

(** Every literal index of the code is within its table. *)
Lemma table_indices_in_range :
  (9 < length (SINH_TAYLOR_COEFFS (F := R)))%nat
  /\ (8 < length (COSH_TAYLOR_COEFFS (F := R)))%nat
  /\ (7 < length (INV_SINH_TAYLOR_COEFFS (F := R)))%nat
  /\ (7 < length (INV_TANH_TAYLOR_COEFFS (F := R)))%nat.
Proof. simpl. lia. Qed.

Lemma factorial_values :
  factorial 2 = 2%Z /\ factorial 3 = 6%Z /\ factorial 4 = 24%Z
  /\ factorial 5 = 120%Z /\ factorial 6 = 720%Z /\ factorial 7 = 5040%Z
  /\ factorial 8 = 40320%Z /\ factorial 9 = 362880%Z.
Proof. repeat split; reflexivity. Qed.

Ltac table_entry :=
  unfold coeff; simpl nth;
  repeat match goal with
         | |- context [factorial ?n] =>
             let v := eval vm_compute in (factorial n) in
             change (factorial n) with v
         end;
  simpl; lra.

(** The coefficients of the exponential and of the logarithm, as the code
    computes them from the tables and as the specification writes them. *)
Lemma exp_coefs_from_table (r epsilon : R) :
  (if fltb r epsilon
   then ((of_Z 1 + coeff COSH_TAYLOR_COEFFS 2 * r ** 2
          + coeff COSH_TAYLOR_COEFFS 4 * r ** 4
          + coeff COSH_TAYLOR_COEFFS 6 * r ** 6
          + coeff COSH_TAYLOR_COEFFS 8 * r ** 8)%fl,
         (of_Z 1 + coeff SINH_TAYLOR_COEFFS 3 * r ** 2
          + coeff SINH_TAYLOR_COEFFS 5 * r ** 4
          + coeff SINH_TAYLOR_COEFFS 7 * r ** 6
          + coeff SINH_TAYLOR_COEFFS 9 * r ** 8)%fl)
   else (fcosh r, (fsinh r / r)%fl))
  = (Formulas.exp_coef_1 r epsilon, Formulas.exp_coef_2 r epsilon).
Proof.
  unfold Formulas.exp_coef_1, Formulas.exp_coef_2,
    Formulas.cosh_taylor, Formulas.sinh_over_r_taylor. simpl fltb.
  destruct (Rltb r epsilon); [| reflexivity].
  apply f_equal2; table_entry.
Qed.

Lemma log_coefs_from_table (a epsilon : R) :
  (if fltb a epsilon
   then ((of_Z 1 + coeff INV_SINH_TAYLOR_COEFFS 1 * a ** 2
          + coeff INV_SINH_TAYLOR_COEFFS 3 * a ** 4
          + coeff INV_SINH_TAYLOR_COEFFS 5 * a ** 6
          + coeff INV_SINH_TAYLOR_COEFFS 7 * a ** 8)%fl,
         (of_Z 1 + coeff INV_TANH_TAYLOR_COEFFS 1 * a ** 2
          + coeff INV_TANH_TAYLOR_COEFFS 3 * a ** 4
          + coeff INV_TANH_TAYLOR_COEFFS 5 * a ** 6
          + coeff INV_TANH_TAYLOR_COEFFS 7 * a ** 8)%fl)
   else ((a / fsinh a)%fl, (a / ftanh a)%fl))
  = (Formulas.log_coef_1 a epsilon, Formulas.log_coef_2 a epsilon).
Proof.
  unfold Formulas.log_coef_1, Formulas.log_coef_2,
    Formulas.inv_sinh_taylor, Formulas.inv_tanh_taylor. simpl fltb.
  destruct (Rltb a epsilon); [| reflexivity].
  apply f_equal2; unfold coeff; simpl; lra.
Qed.

(** The exponential, as the code computes it: the reference point and the
    projected vector, weighted by the two coefficients at the radius
    [sqrt sq]; a negative [sq] is a domain error of [math.sqrt]. *)
Lemma riemannian_exp_unchecked
      (ref_point vector : list R) (epsilon inner_prod sq_norm sq : R) :
  embedding_inner_product ref_point vector = Ok inner_prod ->
  embedding_squared_norm ref_point = Ok sq_norm ->
  embedding_squared_norm
    (Formulas.projection ref_point vector inner_prod sq_norm) = Ok sq ->
  riemannian_exp false ref_point vector epsilon
  = if Rltb sq 0 then Raise ValueError
    else Ok (zip_with Rplus
               (smul (Formulas.exp_coef_1 (sqrt sq) epsilon) ref_point)
               (smul (Formulas.exp_coef_2 (sqrt sq) epsilon)
                     (Formulas.projection ref_point vector
                                          inner_prod sq_norm))).
Proof.
  intros Hip Hsq Htv. unfold riemannian_exp.
  rewrite py_assert_off, bind_Ok.
  rewrite (projection_to_tangent_space_unchecked _ _ Hip Hsq), bind_Ok.
  rewrite Htv, bind_Ok.
  destruct (Rltb sq 0) eqn:E.
  - apply RealFacts.Rltb_lt in E. now rewrite (math_sqrt_negative E).
  - apply RealFacts.Rltb_ge in E. rewrite (math_sqrt_nonneg E), bind_Ok.
    rewrite exp_coefs_from_table.
    apply embedding_inner_product_Ok_inv in Hip
      as [x [p [y [v [-> [-> [Hl _]]]]]]].
    rewrite broadcast2_same_length; [reflexivity |].
    rewrite !length_smul, length_projection; simpl; lia.
Qed.

Lemma riemannian_dist_Ok_length (point_a point_b : list R) (d : R) :
  riemannian_dist false point_a point_b = Ok d ->
  length point_a = length point_b.
Proof.
  unfold riemannian_dist. rewrite !py_assert_off, !bind_Ok.
  intros Hd.
  apply bind_Ok_inv in Hd as [na [_ Hd]].
  apply bind_Ok_inv in Hd as [nb [_ Hd]].
  apply bind_Ok_inv in Hd as [ip [Hip _]].
  apply embedding_inner_product_Ok_inv in Hip
    as [x [p [y [v [-> [-> [Hl _]]]]]]].
  simpl. lia.
Qed.

(** The logarithm, as the code computes it. *)
Lemma riemannian_log_unchecked
      (ref_point point : list R) (epsilon angle : R) :
  riemannian_dist false ref_point point = Ok angle ->
  riemannian_log false ref_point point epsilon
  = Ok (zip_with Rminus
          (smul (Formulas.log_coef_1 angle epsilon) point)
          (smul (Formulas.log_coef_2 angle epsilon) ref_point)).
Proof.
  intros Hd. unfold riemannian_log.
  rewrite !py_assert_off, !bind_Ok, Hd, bind_Ok.
  rewrite log_coefs_from_table.
  apply riemannian_dist_Ok_length in Hd.
  apply broadcast2_same_length. rewrite !length_smul. lia.
Qed.
End Unchecked.

(** *** Two points on opposite sheets

    [belongs] accepts both sheets of the hyperboloid.  Behind the
    assertions, the distance from [1, 0, 0] to [-1, 0, 0] is clamped to
    [0], the logarithm is [-2, 0, 0], and the exponential of it is the
    base point again. *)

Module OppositeSheets.
Import HyperbolicSpace SamplePoints.
Local Open Scope R_scope.

Ltac entries :=
  repeat (apply f_equal2; [simpl; try lra |]); try reflexivity.

Lemma EPSILON_pos : 0 < EPSILON (F := R).
Proof. rewrite HyperbolicReal.EPSILON_value. lra. Qed.

Lemma coefficients_at_zero :
  Formulas.log_coef_1 0 EPSILON = 1 /\ Formulas.log_coef_2 0 EPSILON = 1
  /\ Formulas.exp_coef_1 0 EPSILON = 1 /\ Formulas.exp_coef_2 0 EPSILON = 1.
Proof.
  unfold Formulas.log_coef_1, Formulas.log_coef_2,
    Formulas.exp_coef_1, Formulas.exp_coef_2.
  rewrite (proj2 (RealFacts.Rltb_lt 0 EPSILON) EPSILON_pos).
  unfold Formulas.inv_sinh_taylor, Formulas.inv_tanh_taylor,
    Formulas.cosh_taylor, Formulas.sinh_over_r_taylor.
  simpl. repeat split; lra.
Qed.

Lemma antipode_belongs : belongs true antipode TOLERANCE = Ok PyNone.
Proof.
  apply HyperbolicReal.belongs_on_hyperboloid. unfold antipode.
  rewrite HyperbolicReal.embedding_squared_norm_real.
  f_equal. simpl. lra.
Qed.

Lemma squared_norm_origin : embedding_squared_norm origin = Ok (-1).
Proof.
  unfold origin. rewrite HyperbolicReal.embedding_squared_norm_real.
  f_equal. simpl. lra.
Qed.

Lemma squared_norm_antipode : embedding_squared_norm antipode = Ok (-1).
Proof.
  unfold antipode. rewrite HyperbolicReal.embedding_squared_norm_real.
  f_equal. simpl. lra.
Qed.

Lemma inner_product_origin_antipode :
  embedding_inner_product origin antipode = Ok 1.
Proof.
  unfold origin, antipode.
  rewrite Unchecked.embedding_inner_product_real by reflexivity.
  f_equal. simpl. lra.
Qed.

Lemma dist_origin_antipode : riemannian_dist false origin antipode = Ok 0.
Proof.
  assert (Hpos : 0 <= -1 * -1) by lra.
  rewrite (Unchecked.riemannian_dist_unchecked origin antipode
             squared_norm_origin squared_norm_antipode
             inner_product_origin_antipode Hpos).
  f_equal. unfold Formulas.clamped_arccosh.
  replace (-1 * -1) with 1 by lra. rewrite sqrt_1.
  assert (Hle : - (1) / 1 <= 1) by lra.
  now rewrite (proj2 (RealFacts.Rleb_le _ _) Hle).
Qed.

Lemma log_origin_antipode :
  riemannian_log false origin antipode EPSILON = Ok [-2; 0; 0].
Proof.
  rewrite (Unchecked.riemannian_log_unchecked origin antipode EPSILON
             dist_origin_antipode).
  destruct coefficients_at_zero as [-> [-> _]].
  unfold origin, antipode. f_equal. simpl. entries.
Qed.

Lemma exp_origin_back : riemannian_exp false origin [-2; 0; 0] EPSILON
                        = Ok origin.
Proof.
  assert (Hip : embedding_inner_product origin [-2; 0; 0] = Ok 2).
  { unfold origin.
    rewrite Unchecked.embedding_inner_product_real by reflexivity.
    f_equal. simpl. lra. }
  assert (Htv : Formulas.projection origin [-2; 0; 0] 2 (-1) = [0; 0; 0]).
  { unfold Formulas.projection, origin. simpl. entries. }
  assert (Hsq : embedding_squared_norm
                  (Formulas.projection origin [-2; 0; 0] 2 (-1)) = Ok 0).
  { rewrite Htv, HyperbolicReal.embedding_squared_norm_real.
    f_equal. simpl. lra. }
  rewrite (Unchecked.riemannian_exp_unchecked origin [-2; 0; 0] EPSILON
             Hip squared_norm_origin Hsq).
  rewrite (proj2 (RealFacts.Rltb_ge 0 0) (Rle_refl 0)).
  rewrite sqrt_0, Htv.
  destruct coefficients_at_zero as [_ [_ [-> ->]]].
  unfold origin. f_equal. simpl. entries.
Qed.

(** Behind the assertions, the round trip from [1, 0, 0] to [-1, 0, 0]
    returns [1, 0, 0]. *)
Lemma round_trip_between_sheets :
  belongs true origin TOLERANCE = Ok PyNone
  /\ belongs true antipode TOLERANCE = Ok PyNone
  /\ (v <- riemannian_log false origin antipode EPSILON ;;
      riemannian_exp false origin v EPSILON) = Ok origin
  /\ origin <> antipode.
Proof.
  repeat split.
  - apply FailingInputs.origin_belongs.
  - apply antipode_belongs.
  - rewrite log_origin_antipode, bind_Ok. apply exp_origin_back.
  - unfold origin, antipode. intros E. injection E as E. lra.
Qed.
End OppositeSheets.

(** *** The round trip behind the assertions

    For two points of squared norm [-1] whose Minkowski product is [-1]
    (angle [0]) or below [-1] with an angle of at least [epsilon] (closed
    forms), the exponential of the logarithm is the second point, in exact
    arithmetic. *)

Module RoundTrip.
Import HyperbolicSpace.
Local Open Scope R_scope.

Section Arccosh.
Variable c : R.
Hypothesis c_ge_1 : 1 <= c.

Lemma arccosh_radicand_nonneg : 0 <= c * c - 1.
Proof. nra. Qed.

Lemma exp_arccosh : Rtrigo_def.exp (arccosh c) = c + sqrt (c * c - 1).
Proof.
  unfold arccosh. apply exp_ln.
  pose proof (sqrt_pos (c * c - 1)). lra.
Qed.

Lemma exp_opp_arccosh :
  Rtrigo_def.exp (- arccosh c) = c - sqrt (c * c - 1).
Proof.
  rewrite exp_Ropp, exp_arccosh.
  pose proof (sqrt_pos (c * c - 1)) as Hs.
  pose proof (sqrt_sqrt _ arccosh_radicand_nonneg) as Hss.
  apply Rmult_eq_reg_l with (c + sqrt (c * c - 1)); [| lra].
  rewrite Rinv_r by lra. nra.
Qed.

Lemma cosh_arccosh : cosh (arccosh c) = c.
Proof. unfold cosh. rewrite exp_arccosh, exp_opp_arccosh. lra. Qed.

Lemma sinh_arccosh : sinh (arccosh c) = sqrt (c * c - 1).
Proof. unfold sinh. rewrite exp_arccosh, exp_opp_arccosh. lra. Qed.

Lemma arccosh_nonneg : 0 <= arccosh c.
Proof.
  unfold arccosh.
  pose proof (sqrt_pos (c * c - 1)) as Hs.
  destruct (Req_dec (c + sqrt (c * c - 1)) 1) as [-> | Hne].
  - rewrite ln_1. lra.
  - rewrite <- ln_1. left. apply ln_increasing; lra.
Qed.

Lemma arccosh_pos : 1 < c -> 0 < arccosh c.
Proof.
  intros Hc. unfold arccosh.
  pose proof (sqrt_pos (c * c - 1)) as Hs.
  rewrite <- ln_1. apply ln_increasing; lra.
Qed.

Lemma sinh_arccosh_pos : 1 < c -> 0 < sinh (arccosh c).
Proof.
  intros Hc. rewrite sinh_arccosh. apply sqrt_lt_R0. nra.
Qed.
End Arccosh.

(** Minkowski products of linear combinations. *)
Lemma inner_product_comm (a b : list R) (m : R) :
  embedding_inner_product a b = Ok m -> embedding_inner_product b a = Ok m.
Proof.
  intros Hm.
  apply Unchecked.embedding_inner_product_Ok_inv in Hm
    as [x [a' [y [b' [-> [-> [Hl ->]]]]]]].
  rewrite Unchecked.embedding_inner_product_real by lia.
  f_equal. rewrite (RealFacts.dot_sum_comm b' a'). lra.
Qed.

Lemma inner_product_combination
      (p a b : list R) (alpha beta ma mb : R) :
  embedding_inner_product p a = Ok ma ->
  embedding_inner_product p b = Ok mb ->
  embedding_inner_product
    p (zip_with Rminus (smul alpha a) (smul beta b))
  = Ok (alpha * ma - beta * mb).
Proof.
  intros Ha Hb.
  apply Unchecked.embedding_inner_product_Ok_inv in Ha
    as [x [p' [y [a' [-> [-> [Hla ->]]]]]]].
  apply Unchecked.embedding_inner_product_Ok_inv in Hb
    as [x' [p'' [z [b' [E [-> [Hlb ->]]]]]]].
  injection E as <- <-.
  simpl smul. simpl zip_with.
  rewrite Unchecked.embedding_inner_product_real
    by (rewrite Unchecked.length_zip_with;
        rewrite ?Unchecked.length_smul; lia).
  f_equal.
  rewrite RealFacts.dot_sum_zip_minus
    by (rewrite !Unchecked.length_smul; lia).
  rewrite !RealFacts.dot_sum_smul. simpl. lra.
Qed.

Lemma projection_of_tangent (p v : list R) (s : R) :
  length p = length v -> Formulas.projection p v 0 s = v.
Proof.
  unfold Formulas.projection. revert v.
  induction p as [| x p IH]; intros [| y v] Hl; simpl in *;
    try discriminate; try reflexivity.
  rewrite IH by lia. f_equal. unfold Rdiv. ring.
Qed.

Lemma combination_cancels (p q : list R) (c sigma k1 k2 : R) :
  length p = length q ->
  sigma * k1 = 1 ->
  sigma * k2 = c ->
  zip_with Rplus (smul c p)
           (smul sigma (zip_with Rminus (smul k1 q) (smul k2 p)))
  = q.
Proof.
  intros Hl H1 H2. revert q Hl.
  induction p as [| x p IH]; intros [| y q] Hl; simpl in *;
    try discriminate; try reflexivity.
  rewrite IH by lia. f_equal.
  transitivity (c * x + sigma * k1 * y - sigma * k2 * x); [ring |].
  rewrite H1, H2. ring.
Qed.

(** The round trip, from what it needs of the four coefficients. *)
Lemma round_trip_from_coefficients
      (p q : list R) (epsilon ip angle : R) :
  embedding_squared_norm p = Ok (-1) ->
  embedding_squared_norm q = Ok (-1) ->
  embedding_inner_product p q = Ok ip ->
  riemannian_dist false p q = Ok angle ->
  0 <= angle ->
  Formulas.log_coef_1 angle epsilon * ip
  + Formulas.log_coef_2 angle epsilon = 0 ->
  - Formulas.log_coef_1 angle epsilon * Formulas.log_coef_1 angle epsilon
  - Formulas.log_coef_1 angle epsilon * Formulas.log_coef_2 angle epsilon
    * ip = angle * angle ->
  Formulas.exp_coef_2 angle epsilon * Formulas.log_coef_1 angle epsilon
  = 1 ->
  Formulas.exp_coef_2 angle epsilon * Formulas.log_coef_2 angle epsilon
  = Formulas.exp_coef_1 angle epsilon ->
  (v <- riemannian_log false p q epsilon ;;
   riemannian_exp false p v epsilon) = Ok q.
Proof.
  intros Hp Hq Hip Hd Ha Horth Hsq H1 H2.
  rewrite (Unchecked.riemannian_log_unchecked p q epsilon Hd), bind_Ok.
  set (k1 := Formulas.log_coef_1 angle epsilon) in *.
  set (k2 := Formulas.log_coef_2 angle epsilon) in *.
  set (L := zip_with Rminus (smul k1 q) (smul k2 p)).
  assert (Hlen : length p = length q)
    by exact (Unchecked.riemannian_dist_Ok_length p q Hd).
  assert (HlenL : length p = length L).
  { unfold L. rewrite Unchecked.length_zip_with;
      rewrite !Unchecked.length_smul; lia. }
  assert (HpL : embedding_inner_product p L = Ok 0).
  { unfold L. rewrite (inner_product_combination p q p k1 k2 Hip Hp).
    f_equal. lra. }
  assert (HqL : embedding_inner_product q L = Ok (- k1 - k2 * ip)).
  { unfold L.
    rewrite (inner_product_combination q q p k1 k2 Hq
               (inner_product_comm p q Hip)).
    f_equal. lra. }
  assert (HLL : embedding_squared_norm L = Ok (angle * angle)).
  { unfold embedding_squared_norm. unfold L at 2.
    rewrite (inner_product_combination L q p k1 k2
               (inner_product_comm q L HqL) (inner_product_comm p L HpL)).
    f_equal. lra. }
  assert (Htv : embedding_squared_norm (Formulas.projection p L 0 (-1))
                = Ok (angle * angle))
    by now rewrite projection_of_tangent.
  rewrite (Unchecked.riemannian_exp_unchecked p L epsilon HpL Hp Htv).
  assert (Hnn : 0 <= angle * angle) by nra.
  rewrite (proj2 (RealFacts.Rltb_ge _ _) Hnn).
  rewrite sqrt_square by exact Ha.
  rewrite projection_of_tangent by exact HlenL.
  f_equal. now apply combination_cancels.
Qed.

(** The closed forms at an angle [arccosh c] with [1 < c]. *)
Lemma closed_form_coefficients (c epsilon : R) :
  1 < c ->
  epsilon <= arccosh c ->
  Formulas.log_coef_1 (arccosh c) epsilon
  = arccosh c / sqrt (c * c - 1)
  /\ Formulas.log_coef_2 (arccosh c) epsilon
     = arccosh c * c / sqrt (c * c - 1)
  /\ Formulas.exp_coef_1 (arccosh c) epsilon = c
  /\ Formulas.exp_coef_2 (arccosh c) epsilon
     = sqrt (c * c - 1) / arccosh c.
Proof.
  intros Hc He.
  assert (Hc1 : 1 <= c) by lra.
  unfold Formulas.log_coef_1, Formulas.log_coef_2, Formulas.exp_coef_1,
    Formulas.exp_coef_2.
  rewrite (proj2 (RealFacts.Rltb_ge _ _) He).
  unfold tanh. rewrite (cosh_arccosh Hc1), (sinh_arccosh Hc1).
  assert (Hs : 0 < sqrt (c * c - 1)) by (apply sqrt_lt_R0; nra).
  repeat split; try reflexivity.
  field. lra.
Qed.

(** Behind the assertions and in exact arithmetic, the exponential of the
    logarithm is the second point when the two points have squared norm
    [-1] and their Minkowski product is [-1], or is below [-1] with an
    angle of at least [epsilon]. *)
Lemma round_trip_unchecked (p q : list R) (epsilon ip : R) :
  embedding_squared_norm p = Ok (-1) ->
  embedding_squared_norm q = Ok (-1) ->
  embedding_inner_product p q = Ok ip ->
  (ip = -1 /\ 0 < epsilon) \/ (ip < -1 /\ epsilon <= arccosh (- ip)) ->
  (v <- riemannian_log false p q epsilon ;;
   riemannian_exp false p v epsilon) = Ok q.
Proof.
  intros Hp Hq Hip Hcase.
  assert (Hpos : 0 <= -1 * -1) by lra.
  pose proof (Unchecked.riemannian_dist_unchecked p q Hp Hq Hip Hpos) as Hd.
  replace (-1 * -1) with 1 in Hd by lra. rewrite sqrt_1 in Hd.
  replace (- ip / 1) with (- ip) in Hd by (field; lra).
  unfold Formulas.clamped_arccosh in Hd.
  destruct Hcase as [[-> Heps] | [Hlt Heps]].
  - replace (- -1) with 1 in Hd by lra.
    rewrite (proj2 (RealFacts.Rleb_le 1 1) (Rle_refl 1)) in Hd.
    apply (round_trip_from_coefficients p q epsilon Hp Hq Hip Hd);
      unfold Formulas.log_coef_1, Formulas.log_coef_2,
        Formulas.exp_coef_1, Formulas.exp_coef_2;
      rewrite ?(proj2 (RealFacts.Rltb_lt 0 epsilon) Heps);
      unfold Formulas.inv_sinh_taylor, Formulas.inv_tanh_taylor,
        Formulas.cosh_taylor, Formulas.sinh_over_r_taylor;
      simpl; lra.
  - assert (Hc : 1 < - ip) by lra.
    assert (Hc1 : 1 <= - ip) by lra.
    assert (Hgt : 1 < - ip) by lra.
    rewrite (proj2 (RealFacts.Rleb_gt (- ip) 1) Hgt) in Hd.
    destruct (closed_form_coefficients Hc Heps) as [E1 [E2 [E3 E4]]].
    pose proof (arccosh_pos Hc) as Ha.
    assert (Hs : 0 < sqrt (- ip * - ip - 1)) by (apply sqrt_lt_R0; nra).
    assert (Hss : sqrt (- ip * - ip - 1) * sqrt (- ip * - ip - 1)
                  = - ip * - ip - 1) by (apply sqrt_sqrt; nra).
    apply (round_trip_from_coefficients p q epsilon Hp Hq Hip Hd);
      rewrite ?E1, ?E2, ?E3, ?E4.
    + lra.
    + field. lra.
    + set (a := arccosh (- ip)) in *. set (s := sqrt (- ip * - ip - 1)) in *.
      apply Rmult_eq_reg_r with (s * s); [| nra].
      transitivity (a * a * (- ip * - ip - 1)); [field; lra |].
      rewrite Hss. ring.
    + field. lra.
    + field. lra.
Qed.
End RoundTrip.

(** *** The radius of the exponential is defined

    The tangent vectors at a point of negative squared norm have a
    squared norm that is not negative, so that [math.sqrt] does not
    raise. *)

Module Spacelike.
Import HyperbolicSpace.
Local Open Scope R_scope.

Lemma quadratic_form_nonneg (a b : list R) (lambda mu : R) :
  length a = length b ->
  0 <= lambda * lambda * dot_sum a a
       - 2 * lambda * mu * dot_sum a b
       + mu * mu * dot_sum b b.
Proof.
  intros Hl.
  pose proof (RealFacts.dot_sum_self_nonneg
                (zip_with Rminus (smul lambda a) (smul mu b))) as Hw.
  rewrite RealFacts.dot_sum_zip_minus in Hw
    by (rewrite !Unchecked.length_smul; exact Hl).
  rewrite !RealFacts.dot_sum_smul in Hw.
  rewrite (RealFacts.dot_sum_comm _ a), (RealFacts.dot_sum_comm _ b) in Hw.
  rewrite !RealFacts.dot_sum_zip_minus in Hw
    by (rewrite !Unchecked.length_smul; exact Hl).
  rewrite !RealFacts.dot_sum_smul in Hw.
  rewrite (RealFacts.dot_sum_comm b a) in Hw. lra.
Qed.

Lemma cauchy_schwarz (a b : list R) :
  length a = length b ->
  dot_sum a b * dot_sum a b <= dot_sum a a * dot_sum b b.
Proof.
  intros Hl.
  pose proof (RealFacts.dot_sum_self_nonneg a) as Ha.
  pose proof (RealFacts.dot_sum_self_nonneg b) as Hb.
  pose proof (quadratic_form_nonneg a b (dot_sum b b) (dot_sum a b) Hl)
    as H1.
  pose proof (quadratic_form_nonneg a b (dot_sum a b) (dot_sum a a + 1) Hl)
    as H2.
  set (A := dot_sum a a) in *. set (B := dot_sum b b) in *.
  set (C := dot_sum a b) in *.
  destruct (Rle_lt_or_eq_dec 0 B Hb) as [Hpos | Hzero].
  - assert (H : 0 <= B * (A * B - C * C)) by lra.
    destruct (Rle_or_lt (C * C) (A * B)) as [Hle | Hgt]; [exact Hle |].
    exfalso. assert (B * (A * B - C * C) < 0) by nra. lra.
  - rewrite <- Hzero in *.
    assert (H : C * C * (A + 2) <= 0) by lra.
    assert (0 <= C * C) by nra.
    nra.
Qed.

Lemma orthogonal_to_timelike (x t0 : R) (p t : list R) :
  length p = length t ->
  dot_sum p p - x * x < 0 ->
  dot_sum p t - x * t0 = 0 ->
  0 <= dot_sum t t - t0 * t0.
Proof.
  intros Hl Hneg Horth.
  pose proof (cauchy_schwarz p t Hl) as Hcs.
  pose proof (RealFacts.dot_sum_self_nonneg p) as Hp.
  pose proof (RealFacts.dot_sum_self_nonneg t) as Ht.
  set (A := dot_sum p p) in *. set (T := dot_sum t t) in *.
  assert (E : dot_sum p t = x * t0) by lra. rewrite E in Hcs.
  assert (Hx : 0 < x * x) by lra.
  assert (H1 : x * x * (t0 * t0) <= x * x * T) by nra.
  assert (H2 : t0 * t0 <= T) by (apply Rmult_le_reg_l with (x * x); lra).
  lra.
Qed.

Lemma projection_squared_norm
      (ref_point vector : list R) (inner_prod sq_norm : R) :
  embedding_inner_product ref_point vector = Ok inner_prod ->
  embedding_squared_norm ref_point = Ok sq_norm ->
  sq_norm < 0 ->
  exists sq,
    embedding_squared_norm
      (Formulas.projection ref_point vector inner_prod sq_norm) = Ok sq
    /\ 0 <= sq.
Proof.
  intros Hip Hsq Hneg.
  assert (Hnz : sq_norm <> 0) by lra.
  pose proof (Unchecked.projection_orthogonal ref_point vector Hip Hsq Hnz)
    as Horth.
  apply Unchecked.embedding_inner_product_Ok_inv in Horth
    as [x [p [t0 [t [Ep [Et [Hl Hzero]]]]]]].
  rewrite Et.
  exists (dot_sum t t - t0 * t0).
  split; [apply HyperbolicReal.embedding_squared_norm_real |].
  rewrite Ep in Hsq.
  rewrite HyperbolicReal.embedding_squared_norm_real in Hsq.
  injection Hsq as Hsq.
  apply (@orthogonal_to_timelike x t0 p t Hl); lra.
Qed.

(** For a reference point that passes [belongs] and a vector of its
    length, the exponential behind the assertions returns
    [coef_1 * ref_point + coef_2 * tangent_vec], where [tangent_vec] is
    the projection and the coefficients are taken at the radius
    [sqrt sq], [sq >= 0] being the squared norm of [tangent_vec]. *)
Lemma riemannian_exp_of_valid_point
      (ref_point vector : list R) (epsilon : R) (v : pyval) :
  belongs true ref_point TOLERANCE = Ok v ->
  length ref_point = length vector ->
  exists tangent_vec sq,
    projection_to_tangent_space false ref_point vector = Ok tangent_vec
    /\ embedding_squared_norm tangent_vec = Ok sq
    /\ 0 <= sq
    /\ riemannian_exp false ref_point vector epsilon
       = Ok (zip_with Rplus
               (smul (Formulas.exp_coef_1 (sqrt sq) epsilon) ref_point)
               (smul (Formulas.exp_coef_2 (sqrt sq) epsilon) tangent_vec)).
Proof.
  intros Hb Hl.
  apply Unchecked.belongs_Ok_inv in Hb as [n [Hn [_ Hneg]]].
  assert (Hip : exists ip, embedding_inner_product ref_point vector = Ok ip).
  { destruct ref_point as [| x p]; [discriminate |].
    destruct vector as [| y w]; [discriminate |].
    eexists. apply Unchecked.embedding_inner_product_real.
    simpl in Hl. lia. }
  destruct Hip as [ip Hip].
  destruct (projection_squared_norm ref_point vector Hip Hn Hneg)
    as [sq [Hsq Hpos]].
  exists (Formulas.projection ref_point vector ip n), sq.
  split; [now apply Unchecked.projection_to_tangent_space_unchecked |].
  split; [exact Hsq |]. split; [exact Hpos |].
  rewrite (Unchecked.riemannian_exp_unchecked ref_point vector epsilon
             Hip Hn Hsq).
  now rewrite (proj2 (RealFacts.Rltb_ge _ _) Hpos).
Qed.
End Spacelike.

(** *** The computations at the sample points *)

Module AtSamplePoints.
Import HyperbolicSpace SamplePoints.
Local Open Scope R_scope.

Ltac entries :=
  repeat (apply f_equal2; [simpl; try lra |]); try reflexivity.

Lemma squared_norm_boosted : embedding_squared_norm boosted = Ok (-1).
Proof.
  unfold boosted. rewrite HyperbolicReal.embedding_squared_norm_real.
  f_equal. simpl. lra.
Qed.

Lemma inner_product_origin_boosted :
  embedding_inner_product origin boosted = Ok (- (5 / 4)).
Proof.
  unfold origin, boosted.
  rewrite Unchecked.embedding_inner_product_real by reflexivity.
  f_equal. simpl. lra.
Qed.

Lemma arccosh_five_quarters : arccosh (5 / 4) = ln 2.
Proof.
  unfold arccosh.
  replace (5 / 4 * (5 / 4) - 1) with (3 / 4 * (3 / 4)) by lra.
  rewrite sqrt_square by lra. f_equal. lra.
Qed.

Lemma round_trip_origin_boosted :
  (v <- riemannian_log false origin boosted EPSILON ;;
   riemannian_exp false origin v EPSILON) = Ok boosted.
Proof.
  apply (@RoundTrip.round_trip_unchecked origin boosted EPSILON _
           OppositeSheets.squared_norm_origin squared_norm_boosted
           inner_product_origin_boosted).
  right. split; [lra |].
  replace (- - (5 / 4)) with (5 / 4) by lra.
  rewrite arccosh_five_quarters, HyperbolicReal.EPSILON_value.
  pose proof ln_lt_2. lra.
Qed.

Lemma projection_at_origin :
  projection_to_tangent_space false origin [3; 1; 2] = Ok [0; 1; 2].
Proof.
  assert (Hip : embedding_inner_product origin [3; 1; 2] = Ok (-3)).
  { unfold origin.
    rewrite Unchecked.embedding_inner_product_real by reflexivity.
    f_equal. simpl. lra. }
  rewrite (Unchecked.projection_to_tangent_space_unchecked
             origin [3; 1; 2] Hip OppositeSheets.squared_norm_origin).
  f_equal. unfold Formulas.projection, origin. simpl. entries.
Qed.

Lemma projection_at_origin_orthogonal :
  embedding_inner_product origin [0; 1; 2] = Ok 0.
Proof.
  unfold origin.
  rewrite Unchecked.embedding_inner_product_real by reflexivity.
  f_equal. simpl. lra.
Qed.

Lemma dist_origin_origin : riemannian_dist false origin origin = Ok 0.
Proof.
  apply (Unchecked.riemannian_dist_self_unchecked
           origin FailingInputs.origin_belongs).
Qed.

Lemma exp_at_origin :
  riemannian_exp false origin [0; 1; 0] EPSILON
  = Ok [cosh 1; sinh 1; 0].
Proof.
  assert (Hip : embedding_inner_product origin [0; 1; 0] = Ok 0).
  { unfold origin.
    rewrite Unchecked.embedding_inner_product_real by reflexivity.
    f_equal. simpl. lra. }
  assert (Htv : Formulas.projection origin [0; 1; 0] 0 (-1) = [0; 1; 0]).
  { unfold Formulas.projection, origin. simpl. entries. }
  assert (Hsq : embedding_squared_norm
                  (Formulas.projection origin [0; 1; 0] 0 (-1)) = Ok 1).
  { rewrite Htv, HyperbolicReal.embedding_squared_norm_real.
    f_equal. simpl. lra. }
  rewrite (Unchecked.riemannian_exp_unchecked origin [0; 1; 0] EPSILON
             Hip OppositeSheets.squared_norm_origin Hsq).
  assert (H10 : 0 <= 1) by lra.
  rewrite (proj2 (RealFacts.Rltb_ge 1 0) H10), sqrt_1, Htv.
  unfold Formulas.exp_coef_1, Formulas.exp_coef_2.
  assert (He : EPSILON <= 1)
    by (rewrite HyperbolicReal.EPSILON_value; lra).
  rewrite (proj2 (RealFacts.Rltb_ge 1 EPSILON) He).
  unfold origin. f_equal. simpl. entries.
Qed.
End AtSamplePoints.

(** *** The square-root-free part of the code, run on rational numbers *)

Module Executable.
Import HyperbolicSpace.
Local Open Scope Q_scope.

Example inner_product_runs :
  embedding_inner_product (F := Q) [1; 0; 0] [3; 1; 2] = Ok (-3).
Proof. vm_compute. reflexivity. Qed.

Example belongs_runs :
  belongs (F := Q) true [1; 0; 0] TOLERANCE = Ok PyNone
  /\ belongs (F := Q) true [1; 1; 0] TOLERANCE = Raise AssertionError
  /\ belongs (F := Q) true [] TOLERANCE = Raise IndexError
  /\ belongs (F := Q) false [1; 1; 0] TOLERANCE = Ok PyNone.
Proof. vm_compute. repeat split; reflexivity. Qed.

Example extrinsic_to_intrinsic_runs :
  extrinsic_to_intrinsic_coords (F := Q) true [1; 0; 0]
  = Raise AssertionError
  /\ extrinsic_to_intrinsic_coords (F := Q) false [1; 0; 0] = Ok [0; 0].
Proof. vm_compute. split; reflexivity. Qed.

Example projection_runs :
  projection_to_tangent_space (F := Q) true [1; 0; 0] [3; 1; 2]
  = Raise AssertionError
  /\ projection_to_tangent_space (F := Q) false [1; 0; 0] [3; 1; 2]
     = Ok [0; 1; 2]
  /\ projection_to_tangent_space (F := Q) false [1; 0; 0] [3; 1]
     = Raise ValueError.
Proof. vm_compute. repeat split; reflexivity. Qed.
End Executable.

(** ** The operations on valid points, in the default mode *)

(** C1: the points [p = 1, 0, 0] and [q = 5/4, 3/4, 0] both pass
    [belongs], yet [riemannian_log(p, q)] raises [AssertionError], and so
    does [riemannian_exp] at [p] on every vector: the round trip produces no
    point.  With the assertions not executed the same round trip returns
    [q]. *)
Theorem round_trip_raises_on_valid_points :
  HyperbolicSpace.belongs true SamplePoints.origin HyperbolicSpace.TOLERANCE
  = Ok PyNone
  /\ HyperbolicSpace.belongs true SamplePoints.boosted
       HyperbolicSpace.TOLERANCE = Ok PyNone
  /\ HyperbolicSpace.riemannian_log true SamplePoints.origin
       SamplePoints.boosted HyperbolicSpace.EPSILON = Raise AssertionError
  /\ (forall v : list R,
        HyperbolicSpace.riemannian_exp true SamplePoints.origin v
          HyperbolicSpace.EPSILON = Raise AssertionError)
  /\ (v <- HyperbolicSpace.riemannian_log true SamplePoints.origin
             SamplePoints.boosted HyperbolicSpace.EPSILON ;;
      HyperbolicSpace.riemannian_exp true SamplePoints.origin v
        HyperbolicSpace.EPSILON) = Raise AssertionError
  /\ (v <- HyperbolicSpace.riemannian_log false SamplePoints.origin
             SamplePoints.boosted HyperbolicSpace.EPSILON ;;
      HyperbolicSpace.riemannian_exp false SamplePoints.origin v
        HyperbolicSpace.EPSILON) = Ok SamplePoints.boosted.
Proof.
  assert (Hlog : HyperbolicSpace.riemannian_log true SamplePoints.origin
                   SamplePoints.boosted HyperbolicSpace.EPSILON
                 = Raise AssertionError)
    by apply HyperbolicFacts.riemannian_log_raises.
  split; [| split; [| split; [| split; [| split]]]].
  - apply FailingInputs.origin_belongs.
  - apply FailingInputs.boosted_belongs.
  - exact Hlog.
  - intros v. apply HyperbolicFacts.riemannian_exp_raises.
  - now rewrite Hlog.
  - apply AtSamplePoints.round_trip_origin_boosted.
Qed.

(** C3: the reference point [1, 0, 0] passes [belongs], yet
    [riemannian_exp] at it of the vector [0, 1, 0] raises [AssertionError]
    instead of returning [coef_1 * ref_point + coef_2 * tangent_vec], which
    is [cosh 1, sinh 1, 0] and is what the code computes with the
    assertions not executed. *)
Theorem riemannian_exp_raises_on_valid_point :
  HyperbolicSpace.belongs true SamplePoints.origin HyperbolicSpace.TOLERANCE
  = Ok PyNone
  /\ HyperbolicSpace.riemannian_exp true SamplePoints.origin [0; 1; 0]%R
       HyperbolicSpace.EPSILON = Raise AssertionError
  /\ HyperbolicSpace.riemannian_exp false SamplePoints.origin [0; 1; 0]%R
       HyperbolicSpace.EPSILON = Ok [cosh 1; sinh 1; 0%R].
Proof.
  split; [| split].
  - apply FailingInputs.origin_belongs.
  - apply HyperbolicFacts.riemannian_exp_raises.
  - apply AtSamplePoints.exp_at_origin.
Qed.

(** C4: the point [1, 0, 0] passes [belongs], yet its distance to itself
    is not [0]: [riemannian_dist] raises [AssertionError], as it does
    between [1, 0, 0] and [5/4, 3/4, 0].  With the assertions not executed
    the distance of [1, 0, 0] to itself is [0]. *)
Theorem riemannian_dist_raises_on_valid_points :
  HyperbolicSpace.belongs true SamplePoints.origin HyperbolicSpace.TOLERANCE
  = Ok PyNone
  /\ HyperbolicSpace.riemannian_dist true SamplePoints.origin
       SamplePoints.origin = Raise AssertionError
  /\ HyperbolicSpace.riemannian_dist true SamplePoints.origin
       SamplePoints.boosted = Raise AssertionError
  /\ HyperbolicSpace.riemannian_dist false SamplePoints.origin
       SamplePoints.origin = Ok 0%R.
Proof.
  split; [| split; [| split]].
  - apply FailingInputs.origin_belongs.
  - apply HyperbolicFacts.riemannian_dist_raises.
  - apply HyperbolicFacts.riemannian_dist_raises.
  - apply AtSamplePoints.dist_origin_origin.
Qed.

(** C5: the reference point [1, 0, 0] passes [belongs], yet
    [projection_to_tangent_space] at it of the vector [3, 1, 2] raises
    [AssertionError] instead of returning the projection [0, 1, 2], which
    is orthogonal to the reference point and is what the code computes
    with the assertions not executed. *)
Theorem projection_raises_on_valid_point :
  HyperbolicSpace.belongs true SamplePoints.origin HyperbolicSpace.TOLERANCE
  = Ok PyNone
  /\ HyperbolicSpace.projection_to_tangent_space true SamplePoints.origin
       [3; 1; 2]%R = Raise AssertionError
  /\ HyperbolicSpace.projection_to_tangent_space false SamplePoints.origin
       [3; 1; 2]%R = Ok [0; 1; 2]%R
  /\ HyperbolicSpace.embedding_inner_product SamplePoints.origin
       [0; 1; 2]%R = Ok 0%R.
Proof.
  split; [| split; [| split]].
  - apply FailingInputs.origin_belongs.
  - apply HyperbolicFacts.projection_to_tangent_space_raises.
  - apply AtSamplePoints.projection_at_origin.
  - apply AtSamplePoints.projection_at_origin_orthogonal.
Qed.

(** * Further properties of the code *)

(** ** The Minkowski product and the coordinates, for every backend *)

Module ProductFacts.
Import HyperbolicSpace.
Section AnyBackend.
Context {F : Type} `{Scalar F} `{Elementary F}.
Local Open Scope fl_scope.

Lemma embedding_inner_product_nil_l (b : list F) :
  embedding_inner_product [] b
  = match b with [] => Raise IndexError | _ => Raise ValueError end.
Proof. now destruct b. Qed.

Lemma embedding_inner_product_nil_r (a : list F) :
  embedding_inner_product a []
  = match a with [] => Raise IndexError | _ => Raise ValueError end.
Proof. now destruct a. Qed.

Lemma embedding_inner_product_mismatch (a b : list F) :
  length a <> length b -> embedding_inner_product a b = Raise ValueError.
Proof.
  intros Hl. unfold embedding_inner_product, np_dot.
  apply Nat.eqb_neq in Hl. now rewrite Hl.
Qed.

Lemma extrinsic_to_intrinsic_coords_off (x : F) (v : list F) :
  extrinsic_to_intrinsic_coords false (x :: v) = Ok v.
Proof. reflexivity. Qed.
End AnyBackend.
End ProductFacts.

(** X1: [embedding_inner_product] raises [ValueError] exactly when the two
    arrays differ in length ([np.dot]), raises [IndexError] exactly when
    both are empty ([vector_a[0]]), and returns a number exactly when they
    have one length and at least one entry. *)
Theorem embedding_inner_product_outcomes
  (F : Type) (SF : Scalar F) (a b : list F) :
  (HyperbolicSpace.embedding_inner_product a b = Raise ValueError
   <-> length a <> length b)
  /\ (HyperbolicSpace.embedding_inner_product a b = Raise IndexError
      <-> a = [] /\ b = [])
  /\ ((exists m, HyperbolicSpace.embedding_inner_product a b = Ok m)
      <-> length a = length b /\ a <> []).
Proof.
  destruct (Nat.eq_dec (length a) (length b)) as [Hl | Hl].
  - destruct a as [| x a], b as [| y b]; try discriminate.
    + split; [| split].
      * split; [discriminate | intros Hne; now destruct Hne].
      * split; [now intros _ | reflexivity].
      * split; [intros [m Hm]; discriminate
               | intros [_ Hne]; now destruct Hne].
    + simpl in Hl.
      rewrite HyperbolicFacts.embedding_inner_product_cons by lia.
      split; [| split].
      * split; [discriminate | intros Hne; now destruct Hne].
      * split; [discriminate | intros [E _]; discriminate].
      * split; [intros _; split; [exact Hl | discriminate]
               | intros _; eexists; reflexivity].
  - rewrite (ProductFacts.embedding_inner_product_mismatch a b Hl).
    split; [| split].
    + split; [now intros _ | reflexivity].
    + split; [discriminate | intros [E1 E2]; subst; now destruct Hl].
    + split; [intros [m Hm]; discriminate | intros [E _]; contradiction].
Qed.

(** X2: in the default interpreter mode each operation guarded by
    [assert self.belongs(...)] raises [IndexError], not [AssertionError],
    when the point is the array without entries: the membership test
    fails in [vector[0]] before it compares anything. *)
Theorem guarded_operations_on_empty_point
  (F : Type) (SF : Scalar F) (EF : Elementary F)
  (other : list F) (tolerance epsilon : F) :
  HyperbolicSpace.belongs true [] tolerance = Raise IndexError
  /\ HyperbolicSpace.extrinsic_to_intrinsic_coords true (F := F) []
     = Raise IndexError
  /\ HyperbolicSpace.projection_to_tangent_space true [] other
     = Raise IndexError
  /\ HyperbolicSpace.riemannian_exp true [] other epsilon
     = Raise IndexError
  /\ HyperbolicSpace.riemannian_log true [] other epsilon
     = Raise IndexError
  /\ HyperbolicSpace.riemannian_dist true [] other = Raise IndexError.
Proof. repeat split; reflexivity. Qed.

(** X3: the intrinsic coordinates of the extrinsic coordinates of a
    vector are the vector: [extrinsic_to_intrinsic_coords] after
    [intrinsic_to_extrinsic_coords] returns its argument when the
    assertions are not executed, and raises [AssertionError] in the
    default mode. *)
Theorem intrinsic_coordinates_round_trip
  (F : Type) (SF : Scalar F) (EF : Elementary F) (p : list F) :
  (e <- HyperbolicSpace.intrinsic_to_extrinsic_coords p ;;
   HyperbolicSpace.extrinsic_to_intrinsic_coords false e) = Ok p
  /\ (e <- HyperbolicSpace.intrinsic_to_extrinsic_coords p ;;
      HyperbolicSpace.extrinsic_to_intrinsic_coords true e)
     = Raise AssertionError.
Proof.
  rewrite CoordinateFacts.intrinsic_to_extrinsic_coords_value, !bind_Ok.
  split.
  - apply ProductFacts.extrinsic_to_intrinsic_coords_off.
  - apply HyperbolicFacts.extrinsic_to_intrinsic_coords_raises.
Qed.

(** ** The Minkowski product and membership, over the real numbers *)

Module MinkowskiFacts.
Import HyperbolicSpace.
Local Open Scope R_scope.

Lemma inner_product_sym (a b : list R) :
  embedding_inner_product a b = embedding_inner_product b a.
Proof.
  destruct (Nat.eq_dec (length a) (length b)) as [Hl | Hl].
  - destruct a as [| x a], b as [| y b]; try discriminate; [reflexivity |].
    simpl in Hl.
    rewrite !Unchecked.embedding_inner_product_real by lia.
    f_equal. rewrite (RealFacts.dot_sum_comm a b). ring.
  - rewrite !ProductFacts.embedding_inner_product_mismatch; auto.
Qed.

Lemma inner_product_plus (p a b : list R) (alpha beta ma mb : R) :
  embedding_inner_product p a = Ok ma ->
  embedding_inner_product p b = Ok mb ->
  embedding_inner_product
    p (zip_with Rplus (smul alpha a) (smul beta b))
  = Ok (alpha * ma + beta * mb).
Proof.
  intros Ha Hb.
  apply Unchecked.embedding_inner_product_Ok_inv in Ha
    as [x [p' [y [a' [-> [-> [Hla ->]]]]]]].
  apply Unchecked.embedding_inner_product_Ok_inv in Hb
    as [x' [p'' [z [b' [E [-> [Hlb ->]]]]]]].
  injection E as <- <-.
  simpl smul. simpl zip_with.
  rewrite Unchecked.embedding_inner_product_real
    by (rewrite Unchecked.length_zip_with;
        rewrite ?Unchecked.length_smul; lia).
  f_equal.
  rewrite RealFacts.dot_sum_zip_plus
    by (rewrite !Unchecked.length_smul; lia).
  rewrite !RealFacts.dot_sum_smul. simpl. lra.
Qed.

Lemma squared_norm_cases (point : list R) :
  (point = [] /\ embedding_squared_norm point = Raise IndexError)
  \/ (exists n, embedding_squared_norm point = Ok n).
Proof.
  destruct point as [| x v].
  - left. now split.
  - right. eexists. apply HyperbolicReal.embedding_squared_norm_real.
Qed.
End MinkowskiFacts.

(** X4: the Minkowski product is symmetric, errors included:
    [embedding_inner_product(a, b)] and [embedding_inner_product(b, a)]
    return the same number or raise the same exception. *)
Theorem embedding_inner_product_symmetric (a b : list R) :
  HyperbolicSpace.embedding_inner_product a b
  = HyperbolicSpace.embedding_inner_product b a.
Proof. apply MinkowskiFacts.inner_product_sym. Qed.

(** X5: the Minkowski product is linear in its second argument: when the
    products of [p] with [a] and with [b] are [ma] and [mb], the product
    of [p] with [alpha * a + beta * b] is [alpha * ma + beta * mb]. *)
Theorem embedding_inner_product_linear
  (p a b : list R) (alpha beta ma mb : R) :
  HyperbolicSpace.embedding_inner_product p a = Ok ma ->
  HyperbolicSpace.embedding_inner_product p b = Ok mb ->
  HyperbolicSpace.embedding_inner_product
    p (zip_with Rplus (smul alpha a) (smul beta b))
  = Ok (alpha * ma + beta * mb)%R.
Proof. apply MinkowskiFacts.inner_product_plus. Qed.

Lemma embedding_inner_product_linear_witness :
  HyperbolicSpace.embedding_inner_product
    [1; 0; 0]%R
    (zip_with Rplus (smul 2%R [3; 1; 2]%R) (smul 5%R [1; 1; 0]%R))
  = Ok (2 * -3 + 5 * -1)%R.
Proof.
  apply (@embedding_inner_product_linear
           [1; 0; 0]%R [3; 1; 2]%R [1; 1; 0]%R 2%R 5%R (-3)%R (-1)%R).
  - rewrite Unchecked.embedding_inner_product_real by reflexivity.
    f_equal. simpl. lra.
  - rewrite Unchecked.embedding_inner_product_real by reflexivity.
    f_equal. simpl. lra.
Defined.

(** X6: in the default mode, a point that passes [belongs] with a
    tolerance passes it with every larger one, and the tolerance it passes
    with is positive: no point passes a tolerance of zero or below. *)
Theorem belongs_monotone_in_tolerance
  (point : list R) (tolerance larger : R) :
  (tolerance <= larger)%R ->
  HyperbolicSpace.belongs true point tolerance = Ok PyNone ->
  HyperbolicSpace.belongs true point larger = Ok PyNone
  /\ (0 < tolerance)%R.
Proof.
  intros Hle Hb.
  destruct (MinkowskiFacts.squared_norm_cases point) as [[-> _] | [n Hn]];
    [discriminate |].
  rewrite (HyperbolicReal.belongs_real true point tolerance Hn) in Hb.
  rewrite (HyperbolicReal.belongs_real true point larger Hn).
  destruct (Rltb (Rabs (n + 1)) tolerance) eqn:E; [| discriminate].
  apply RealFacts.Rltb_lt in E.
  pose proof (Rabs_pos (n + 1)) as Hp.
  split; [| lra].
  assert (Hlt : (Rabs (n + 1) < larger)%R) by lra.
  now rewrite (proj2 (RealFacts.Rltb_lt _ _) Hlt).
Qed.

Lemma belongs_monotone_in_tolerance_witness :
  HyperbolicSpace.belongs true SamplePoints.origin 1%R = Ok PyNone
  /\ (0 < HyperbolicSpace.TOLERANCE)%R.
Proof.
  apply (@belongs_monotone_in_tolerance
           SamplePoints.origin HyperbolicSpace.TOLERANCE 1%R).
  - rewrite HyperbolicReal.TOLERANCE_value. lra.
  - exact FailingInputs.origin_belongs.
Defined.

(** X7: for a point [x :: v] of squared norm [-1], the extrinsic
    coordinates of its intrinsic coordinates are [|x| :: v]: the point
    itself on the upper sheet, its mirror image on the lower one (the
    assertions not executed). *)
Theorem extrinsic_coordinates_round_trip (x : R) (v : list R) :
  HyperbolicSpace.embedding_squared_norm (x :: v) = Ok (-1)%R ->
  (p <- HyperbolicSpace.extrinsic_to_intrinsic_coords false (x :: v) ;;
   HyperbolicSpace.intrinsic_to_extrinsic_coords p) = Ok (Rabs x :: v).
Proof.
  intros Hn.
  rewrite HyperbolicReal.embedding_squared_norm_real in Hn.
  injection Hn as Hn.
  rewrite ProductFacts.extrinsic_to_intrinsic_coords_off, bind_Ok.
  rewrite CoordinateFacts.intrinsic_to_extrinsic_coords_value.
  do 2 f_equal. simpl.
  replace (1 + dot_sum v v)%R with (Rsqr x) by (unfold Rsqr; lra).
  apply sqrt_Rsqr_abs.
Qed.

Lemma extrinsic_coordinates_round_trip_witness :
  (p <- HyperbolicSpace.extrinsic_to_intrinsic_coords
          false SamplePoints.antipode ;;
   HyperbolicSpace.intrinsic_to_extrinsic_coords p)
  = Ok (Rabs (-1) :: [0; 0]%R).
Proof.
  apply (@extrinsic_coordinates_round_trip (-1)%R [0; 0]%R).
  exact OppositeSheets.squared_norm_antipode.
Defined.

(** ** The projection, with the assertions not executed *)

Module ProjectionFacts.
Import HyperbolicSpace.
Local Open Scope R_scope.

Lemma inner_product_returns (ref_point vector : list R) (n : R) :
  embedding_squared_norm ref_point = Ok n ->
  length ref_point = length vector ->
  exists ip, embedding_inner_product ref_point vector = Ok ip.
Proof.
  intros Hn Hl.
  destruct ref_point as [| x p]; [discriminate |].
  destruct vector as [| y w]; [discriminate |].
  eexists. apply Unchecked.embedding_inner_product_real.
  simpl in Hl. lia.
Qed.

Lemma projection_returns (ref_point vector : list R) (n : R) :
  embedding_squared_norm ref_point = Ok n ->
  length ref_point = length vector ->
  exists ip,
    embedding_inner_product ref_point vector = Ok ip
    /\ projection_to_tangent_space false ref_point vector
       = Ok (Formulas.projection ref_point vector ip n).
Proof.
  intros Hn Hl.
  destruct (inner_product_returns ref_point vector Hn Hl) as [ip Hip].
  exists ip. split; [exact Hip |].
  now apply Unchecked.projection_to_tangent_space_unchecked.
Qed.

Lemma projection_tangent_and_orthogonal
      (ref_point vector : list R) (n : R) :
  embedding_squared_norm ref_point = Ok n ->
  n <> 0 ->
  length ref_point = length vector ->
  exists tangent_vec,
    projection_to_tangent_space false ref_point vector = Ok tangent_vec
    /\ length tangent_vec = length ref_point
    /\ embedding_inner_product ref_point tangent_vec = Ok 0.
Proof.
  intros Hn Hnz Hl.
  destruct (projection_returns ref_point vector Hn Hl) as [ip [Hip Hp]].
  exists (Formulas.projection ref_point vector ip n).
  split; [exact Hp |]. split.
  - now apply Unchecked.length_projection.
  - now apply Unchecked.projection_orthogonal.
Qed.

Lemma projection_fixes_tangent (ref_point tangent_vec : list R) (n : R) :
  embedding_squared_norm ref_point = Ok n ->
  embedding_inner_product ref_point tangent_vec = Ok 0 ->
  projection_to_tangent_space false ref_point tangent_vec = Ok tangent_vec.
Proof.
  intros Hn Hip.
  rewrite (Unchecked.projection_to_tangent_space_unchecked
             ref_point tangent_vec Hip Hn).
  f_equal. apply RoundTrip.projection_of_tangent.
  apply Unchecked.embedding_inner_product_Ok_inv in Hip
    as [x [p [y [t [-> [-> [Hl _]]]]]]].
  simpl. lia.
Qed.

Lemma inner_product_with_multiple (ref_point : list R) (c n : R) :
  embedding_squared_norm ref_point = Ok n ->
  embedding_inner_product ref_point (smul c ref_point) = Ok (c * n).
Proof.
  intros Hn. destruct ref_point as [| x p]; [discriminate |].
  rewrite HyperbolicReal.embedding_squared_norm_real in Hn.
  injection Hn as <-. simpl smul.
  rewrite Unchecked.embedding_inner_product_real
    by now rewrite Unchecked.length_smul.
  f_equal. rewrite RealFacts.dot_sum_smul. ring.
Qed.

Lemma projection_of_multiple_entries (p : list R) (c n : R) :
  n <> 0 ->
  Formulas.projection p (smul c p) (c * n) n = map (fun _ => 0) p.
Proof.
  intros Hnz. unfold Formulas.projection.
  induction p as [| x p IH]; simpl; [reflexivity |].
  rewrite IH. f_equal. field. exact Hnz.
Qed.

Lemma projection_of_multiple (ref_point : list R) (c n : R) :
  embedding_squared_norm ref_point = Ok n ->
  n <> 0 ->
  projection_to_tangent_space false ref_point (smul c ref_point)
  = Ok (map (fun _ => 0) ref_point).
Proof.
  intros Hn Hnz.
  rewrite (Unchecked.projection_to_tangent_space_unchecked
             ref_point (smul c ref_point)
             (inner_product_with_multiple ref_point c Hn) Hn).
  f_equal. now apply projection_of_multiple_entries.
Qed.
End ProjectionFacts.

(** X8: with the assertions not executed, for a reference point of
    squared norm [n <> 0] and a vector of its length,
    [projection_to_tangent_space] returns a vector of that length whose
    Minkowski product with the reference point is [0]. *)
Theorem projection_is_orthogonal (ref_point vector : list R) (n : R) :
  HyperbolicSpace.embedding_squared_norm ref_point = Ok n ->
  n <> 0%R ->
  length ref_point = length vector ->
  exists tangent_vec,
    HyperbolicSpace.projection_to_tangent_space false ref_point vector
    = Ok tangent_vec
    /\ length tangent_vec = length ref_point
    /\ HyperbolicSpace.embedding_inner_product ref_point tangent_vec
       = Ok 0%R.
Proof. apply ProjectionFacts.projection_tangent_and_orthogonal. Qed.

Lemma projection_is_orthogonal_witness :
  exists tangent_vec,
    HyperbolicSpace.projection_to_tangent_space
      false SamplePoints.boosted [3; 1; 2]%R = Ok tangent_vec
    /\ length tangent_vec = length SamplePoints.boosted
    /\ HyperbolicSpace.embedding_inner_product
         SamplePoints.boosted tangent_vec = Ok 0%R.
Proof.
  apply (@projection_is_orthogonal
           SamplePoints.boosted [3; 1; 2]%R (-1)%R).
  - exact AtSamplePoints.squared_norm_boosted.
  - lra.
  - reflexivity.
Defined.

(** X9: with the assertions not executed, projecting twice is projecting
    once: the projection of a projected vector is that vector. *)
Theorem projection_is_idempotent (ref_point vector : list R) (n : R) :
  HyperbolicSpace.embedding_squared_norm ref_point = Ok n ->
  n <> 0%R ->
  length ref_point = length vector ->
  (tangent_vec <- HyperbolicSpace.projection_to_tangent_space
                    false ref_point vector ;;
   HyperbolicSpace.projection_to_tangent_space false ref_point tangent_vec)
  = HyperbolicSpace.projection_to_tangent_space false ref_point vector.
Proof.
  intros Hn Hnz Hl.
  destruct (ProjectionFacts.projection_tangent_and_orthogonal
              ref_point vector Hn Hnz Hl) as [t [Hp [_ Horth]]].
  rewrite Hp, bind_Ok.
  now apply ProjectionFacts.projection_fixes_tangent with (n := n).
Qed.

Lemma projection_is_idempotent_witness :
  (tangent_vec <- HyperbolicSpace.projection_to_tangent_space
                    false SamplePoints.boosted [3; 1; 2]%R ;;
   HyperbolicSpace.projection_to_tangent_space
     false SamplePoints.boosted tangent_vec)
  = HyperbolicSpace.projection_to_tangent_space
      false SamplePoints.boosted [3; 1; 2]%R.
Proof.
  apply (@projection_is_idempotent
           SamplePoints.boosted [3; 1; 2]%R (-1)%R).
  - exact AtSamplePoints.squared_norm_boosted.
  - lra.
  - reflexivity.
Defined.

(** X10: with the assertions not executed, the projection of a multiple
    of the reference point is the zero vector. *)
Theorem projection_of_reference_direction
  (ref_point : list R) (c n : R) :
  HyperbolicSpace.embedding_squared_norm ref_point = Ok n ->
  n <> 0%R ->
  HyperbolicSpace.projection_to_tangent_space
    false ref_point (smul c ref_point)
  = Ok (map (fun _ => 0%R) ref_point).
Proof. apply ProjectionFacts.projection_of_multiple. Qed.

Lemma projection_of_reference_direction_witness :
  HyperbolicSpace.projection_to_tangent_space
    false SamplePoints.boosted (smul 7%R SamplePoints.boosted)
  = Ok (map (fun _ => 0%R) SamplePoints.boosted).
Proof.
  apply (@projection_of_reference_direction
           SamplePoints.boosted 7%R (-1)%R).
  - exact AtSamplePoints.squared_norm_boosted.
  - lra.
Defined.

(** ** The distance, with the assertions not executed *)

Module DistanceFacts.
Import HyperbolicSpace.
Local Open Scope R_scope.

Lemma dist_sym (point_a point_b : list R) :
  riemannian_dist false point_a point_b
  = riemannian_dist false point_b point_a.
Proof.
  unfold riemannian_dist. rewrite !py_assert_off, !bind_Ok.
  rewrite (MinkowskiFacts.inner_product_sym point_b point_a).
  destruct (MinkowskiFacts.squared_norm_cases point_a)
    as [[-> Ha] | [na Ha]];
    destruct (MinkowskiFacts.squared_norm_cases point_b)
    as [[-> Hb] | [nb Hb]]; rewrite ?Ha, ?Hb; try reflexivity.
  rewrite !bind_Ok. simpl fmul. now rewrite (Rmult_comm nb na).
Qed.

Lemma dist_nonneg (point_a point_b : list R) (d : R) :
  riemannian_dist false point_a point_b = Ok d -> 0 <= d.
Proof.
  unfold riemannian_dist. rewrite !py_assert_off, !bind_Ok.
  intros Hd.
  apply bind_Ok_inv in Hd as [na [_ Hd]].
  apply bind_Ok_inv in Hd as [nb [_ Hd]].
  apply bind_Ok_inv in Hd as [ip [_ Hd]].
  apply bind_Ok_inv in Hd as [root [_ Hd]].
  cbv zeta in Hd. simpl in Hd.
  destruct (Rleb (- ip / root) 1) eqn:E; injection Hd as <-.
  - lra.
  - apply RealFacts.Rleb_gt in E. apply RoundTrip.arccosh_nonneg. lra.
Qed.

Lemma inner_product_of_multiples (a b : list R) (c d m : R) :
  embedding_inner_product a b = Ok m ->
  embedding_inner_product (smul c a) (smul d b) = Ok (c * d * m).
Proof.
  intros Hm.
  apply Unchecked.embedding_inner_product_Ok_inv in Hm
    as [x [a' [y [b' [-> [-> [Hl ->]]]]]]].
  simpl smul.
  rewrite Unchecked.embedding_inner_product_real
    by (rewrite !Unchecked.length_smul; exact Hl).
  f_equal. rewrite RealFacts.dot_sum_smul.
  rewrite (RealFacts.dot_sum_comm (smul c a') b').
  rewrite RealFacts.dot_sum_smul, (RealFacts.dot_sum_comm b' a'). ring.
Qed.

Lemma dist_to_mirror_image (point : list R) :
  embedding_squared_norm point = Ok (-1) ->
  riemannian_dist false point (smul (-1) point) = Ok 0.
Proof.
  intros Hn.
  assert (Hm : embedding_squared_norm (smul (-1) point) = Ok (-1)).
  { unfold embedding_squared_norm in *.
    rewrite (inner_product_of_multiples point point (-1) (-1) Hn).
    f_equal. lra. }
  assert (Hip : embedding_inner_product point (smul (-1) point) = Ok 1).
  { rewrite (ProjectionFacts.inner_product_with_multiple point (-1) Hn).
    f_equal. lra. }
  assert (Hpos : 0 <= -1 * -1) by lra.
  rewrite (Unchecked.riemannian_dist_unchecked
             point (smul (-1) point) Hn Hm Hip Hpos).
  f_equal. unfold Formulas.clamped_arccosh.
  replace (-1 * -1) with 1 by lra. rewrite sqrt_1.
  assert (Hle : - (1) / 1 <= 1) by lra.
  now rewrite (proj2 (RealFacts.Rleb_le _ _) Hle).
Qed.

Lemma mirror_image_differs (point : list R) :
  embedding_squared_norm point = Ok (-1) -> point <> smul (-1) point.
Proof.
  intros Hn E. destruct point as [| x v]; [discriminate |].
  rewrite HyperbolicReal.embedding_squared_norm_real in Hn.
  injection Hn as Hn. simpl in E. injection E as Ex _.
  pose proof (RealFacts.dot_sum_self_nonneg v) as Hv.
  assert (x = 0) by lra. subst x. lra.
Qed.

Lemma unit_coefficients_at_zero (epsilon : R) :
  0 < epsilon ->
  Formulas.log_coef_1 0 epsilon = 1 /\ Formulas.log_coef_2 0 epsilon = 1
  /\ Formulas.exp_coef_1 0 epsilon = 1 /\ Formulas.exp_coef_2 0 epsilon = 1.
Proof.
  intros Heps.
  unfold Formulas.log_coef_1, Formulas.log_coef_2,
    Formulas.exp_coef_1, Formulas.exp_coef_2.
  rewrite (proj2 (RealFacts.Rltb_lt 0 epsilon) Heps).
  unfold Formulas.inv_sinh_taylor, Formulas.inv_tanh_taylor,
    Formulas.cosh_taylor, Formulas.sinh_over_r_taylor.
  simpl. repeat split; lra.
Qed.

Lemma difference_of_equal_multiples (p : list R) (k : R) :
  zip_with Rminus (smul k p) (smul k p) = map (fun _ => 0) p.
Proof.
  induction p as [| x p IH]; simpl; [reflexivity |].
  rewrite IH. f_equal. ring.
Qed.

Lemma log_of_same_point (point : list R) (epsilon : R) (v : pyval) :
  belongs true point TOLERANCE = Ok v ->
  0 < epsilon ->
  riemannian_log false point point epsilon = Ok (map (fun _ => 0) point).
Proof.
  intros Hb Heps.
  rewrite (Unchecked.riemannian_log_unchecked point point epsilon
             (Unchecked.riemannian_dist_self_unchecked point Hb)).
  destruct (unit_coefficients_at_zero Heps) as [-> [-> _]].
  f_equal. apply difference_of_equal_multiples.
Qed.
End DistanceFacts.

(** X11: with the assertions not executed, the distance is symmetric,
    errors included: [riemannian_dist(a, b)] and [riemannian_dist(b, a)]
    return the same number or raise the same exception. *)
Theorem riemannian_dist_symmetric (point_a point_b : list R) :
  HyperbolicSpace.riemannian_dist false point_a point_b
  = HyperbolicSpace.riemannian_dist false point_b point_a.
Proof. apply DistanceFacts.dist_sym. Qed.

(** X12: with the assertions not executed, for two arrays of one length
    whose squared norms are negative, [riemannian_dist] returns a number,
    and the number is not negative. *)
Theorem riemannian_dist_returns_nonnegative
  (point_a point_b : list R) (na nb : R) :
  HyperbolicSpace.embedding_squared_norm point_a = Ok na ->
  HyperbolicSpace.embedding_squared_norm point_b = Ok nb ->
  (na < 0)%R -> (nb < 0)%R ->
  length point_a = length point_b ->
  exists d,
    HyperbolicSpace.riemannian_dist false point_a point_b = Ok d
    /\ (0 <= d)%R.
Proof.
  intros Ha Hb Hna Hnb Hl.
  destruct (ProjectionFacts.inner_product_returns point_a point_b Ha Hl)
    as [ip Hip].
  assert (Hpos : (0 <= na * nb)%R) by nra.
  pose proof (Unchecked.riemannian_dist_unchecked
                point_a point_b Ha Hb Hip Hpos) as Hd.
  eexists. split; [exact Hd |].
  now apply (DistanceFacts.dist_nonneg point_a point_b).
Qed.

Lemma riemannian_dist_returns_nonnegative_witness :
  exists d,
    HyperbolicSpace.riemannian_dist
      false SamplePoints.origin SamplePoints.boosted = Ok d
    /\ (0 <= d)%R.
Proof.
  apply (@riemannian_dist_returns_nonnegative
           SamplePoints.origin SamplePoints.boosted (-1)%R (-1)%R).
  - exact OppositeSheets.squared_norm_origin.
  - exact AtSamplePoints.squared_norm_boosted.
  - lra.
  - lra.
  - reflexivity.
Defined.

(** X13: with the assertions not executed, the distance of a point of
    squared norm [-1] to its mirror image [-point] on the other sheet is
    the clamped value [0], although the two points differ. *)
Theorem riemannian_dist_to_mirror_image (point : list R) :
  HyperbolicSpace.embedding_squared_norm point = Ok (-1)%R ->
  HyperbolicSpace.riemannian_dist false point (smul (-1)%R point)
  = Ok 0%R
  /\ point <> smul (-1)%R point.
Proof.
  intros Hn. split.
  - now apply DistanceFacts.dist_to_mirror_image.
  - now apply DistanceFacts.mirror_image_differs.
Qed.

Lemma riemannian_dist_to_mirror_image_witness :
  HyperbolicSpace.riemannian_dist
    false SamplePoints.boosted (smul (-1)%R SamplePoints.boosted)
  = Ok 0%R
  /\ SamplePoints.boosted <> smul (-1)%R SamplePoints.boosted.
Proof.
  apply (@riemannian_dist_to_mirror_image SamplePoints.boosted).
  exact AtSamplePoints.squared_norm_boosted.
Defined.

(** X14: with the assertions not executed, the logarithm at a point that
    passes [belongs] of that same point is the zero vector, for every
    positive [epsilon]. *)
Theorem riemannian_log_of_same_point
  (point : list R) (epsilon : R) (v : pyval) :
  HyperbolicSpace.belongs true point HyperbolicSpace.TOLERANCE = Ok v ->
  (0 < epsilon)%R ->
  HyperbolicSpace.riemannian_log false point point epsilon
  = Ok (map (fun _ => 0%R) point).
Proof. apply DistanceFacts.log_of_same_point. Qed.

Lemma riemannian_log_of_same_point_witness :
  HyperbolicSpace.riemannian_log
    false SamplePoints.boosted SamplePoints.boosted HyperbolicSpace.EPSILON
  = Ok (map (fun _ => 0%R) SamplePoints.boosted).
Proof.
  apply (@riemannian_log_of_same_point
           SamplePoints.boosted HyperbolicSpace.EPSILON PyNone).
  - exact FailingInputs.boosted_belongs.
  - exact OppositeSheets.EPSILON_pos.
Defined.

(** ** The exponential, with the assertions not executed *)

Module ExpFacts.
Import HyperbolicSpace.
Local Open Scope R_scope.

Lemma exp_mul_exp_opp (x : R) :
  Rtrigo_def.exp x * Rtrigo_def.exp (- x) = 1.
Proof.
  rewrite exp_Ropp. pose proof (exp_pos x). now field_simplify_eq; lra.
Qed.

Lemma cosh2_minus_sinh2 (x : R) : cosh x * cosh x - sinh x * sinh x = 1.
Proof.
  unfold cosh, sinh. pose proof (exp_mul_exp_opp x) as He.
  set (e := Rtrigo_def.exp x) in *. set (e' := Rtrigo_def.exp (- x)) in *.
  replace ((e + e') / 2 * ((e + e') / 2) - (e - e') / 2 * ((e - e') / 2))
    with (e * e') by field.
  exact He.
Qed.

Lemma sinh_pos (x : R) : 0 < x -> 0 < sinh x.
Proof.
  intros Hx. unfold sinh.
  assert (Hlt : Rtrigo_def.exp (- x) < Rtrigo_def.exp x)
    by (apply exp_increasing; lra).
  lra.
Qed.

Lemma cosh_pos (x : R) : 0 < cosh x.
Proof.
  unfold cosh. pose proof (exp_pos x). pose proof (exp_pos (- x)). lra.
Qed.

Lemma cosh_gt_1 (x : R) : 0 < x -> 1 < cosh x.
Proof.
  intros Hx. pose proof (sinh_pos Hx) as Hs.
  pose proof (cosh_pos x) as Hc. pose proof (cosh2_minus_sinh2 x) as H2.
  nra.
Qed.

Lemma arccosh_cosh (x : R) : 0 < x -> arccosh (cosh x) = x.
Proof.
  intros Hx. unfold arccosh.
  pose proof (cosh2_minus_sinh2 x) as H2.
  replace (cosh x * cosh x - 1) with (sinh x * sinh x) by lra.
  rewrite sqrt_square by (left; now apply sinh_pos).
  replace (cosh x + sinh x) with (Rtrigo_def.exp x)
    by (unfold cosh, sinh; lra).
  apply ln_exp.
Qed.

Lemma projection_Ok_inv (ref_point vector tangent_vec : list R) :
  projection_to_tangent_space false ref_point vector = Ok tangent_vec ->
  exists ip n,
    embedding_inner_product ref_point vector = Ok ip
    /\ embedding_squared_norm ref_point = Ok n
    /\ tangent_vec = Formulas.projection ref_point vector ip n.
Proof.
  intros Hp. pose proof Hp as Hq.
  unfold projection_to_tangent_space in Hq.
  rewrite py_assert_off, bind_Ok in Hq.
  apply bind_Ok_inv in Hq as [ip [Hip Hq]].
  apply bind_Ok_inv in Hq as [n [Hn _]].
  exists ip, n. split; [exact Hip |]. split; [exact Hn |].
  rewrite (Unchecked.projection_to_tangent_space_unchecked
             ref_point vector Hip Hn) in Hp.
  now injection Hp.
Qed.

(** The point the exponential returns, and its Minkowski products. *)
Lemma exp_value_and_products
      (ref_point vector tangent_vec : list R) (epsilon sq : R) :
  embedding_squared_norm ref_point = Ok (-1) ->
  projection_to_tangent_space false ref_point vector = Ok tangent_vec ->
  embedding_squared_norm tangent_vec = Ok sq ->
  let c1 := Formulas.exp_coef_1 (sqrt sq) epsilon in
  let c2 := Formulas.exp_coef_2 (sqrt sq) epsilon in
  let res := zip_with Rplus (smul c1 ref_point) (smul c2 tangent_vec) in
  0 <= sq
  /\ length ref_point = length tangent_vec
  /\ riemannian_exp false ref_point vector epsilon = Ok res
  /\ embedding_inner_product ref_point res = Ok (- c1)
  /\ embedding_squared_norm res = Ok (c2 * c2 * sq - c1 * c1).
Proof.
  intros Hn Hp Hsq c1 c2 res.
  destruct (projection_Ok_inv ref_point vector Hp)
    as [ip [n [Hip [Hn' ->]]]].
  rewrite Hn in Hn'. injection Hn' as <-.
  assert (Hnz : -1 <> 0) by lra. assert (Hneg : -1 < 0) by lra.
  pose proof (Unchecked.projection_orthogonal ref_point vector Hip Hn Hnz)
    as Horth.
  destruct (Spacelike.projection_squared_norm ref_point vector Hip Hn Hneg)
    as [sq' [Hsq' Hpos]].
  rewrite Hsq in Hsq'. injection Hsq' as <-.
  assert (Hl : length ref_point
               = length (Formulas.projection ref_point vector ip (-1))).
  { apply Unchecked.embedding_inner_product_Ok_inv in Horth
      as [x [p [y [t [-> [-> [Hl _]]]]]]]. simpl. lia. }
  assert (Hrr : embedding_inner_product ref_point res = Ok (- c1)).
  { unfold res.
    rewrite (MinkowskiFacts.inner_product_plus
               ref_point ref_point _ c1 c2 Hn Horth).
    f_equal. lra. }
  assert (Htr : embedding_inner_product
                  (Formulas.projection ref_point vector ip (-1)) res
                = Ok (c2 * sq)).
  { unfold res.
    rewrite (MinkowskiFacts.inner_product_sym ref_point _) in Horth.
    rewrite (MinkowskiFacts.inner_product_plus
               _ ref_point _ c1 c2 Horth Hsq).
    f_equal. lra. }
  split; [exact Hpos |]. split; [exact Hl |]. split.
  - rewrite (Unchecked.riemannian_exp_unchecked ref_point vector epsilon
               Hip Hn Hsq).
    now rewrite (proj2 (RealFacts.Rltb_ge _ _) Hpos).
  - split; [exact Hrr |].
    rewrite (MinkowskiFacts.inner_product_sym ref_point res) in Hrr.
    rewrite (MinkowskiFacts.inner_product_sym _ res) in Htr.
    unfold embedding_squared_norm. unfold res at 2.
    rewrite (MinkowskiFacts.inner_product_plus
               res ref_point _ c1 c2 Hrr Htr).
    f_equal. lra.
Qed.

(** The identities of the coefficients at a radius [0] or of at least
    [epsilon]. *)
Lemma coefficients_in_regime (epsilon sq : R) :
  0 < epsilon ->
  0 <= sq ->
  sq = 0 \/ epsilon <= sqrt sq ->
  let r := sqrt sq in
  let c1 := Formulas.exp_coef_1 r epsilon in
  let c2 := Formulas.exp_coef_2 r epsilon in
  c2 * c2 * sq - c1 * c1 = -1
  /\ Formulas.clamped_arccosh c1 = r
  /\ Formulas.log_coef_1 r epsilon * c2 = 1
  /\ Formulas.log_coef_1 r epsilon * c1 = Formulas.log_coef_2 r epsilon.
Proof.
  intros Heps Hpos [-> | Hr]; cbv zeta.
  - rewrite sqrt_0.
    destruct (DistanceFacts.unit_coefficients_at_zero Heps)
      as [-> [-> [-> ->]]].
    unfold Formulas.clamped_arccosh.
    rewrite (proj2 (RealFacts.Rleb_le 1 1) (Rle_refl 1)).
    repeat split; lra.
  - set (r := sqrt sq) in *.
    assert (Hrpos : 0 < r) by lra.
    assert (Hsq : sq = r * r) by (unfold r; now rewrite sqrt_sqrt).
    unfold Formulas.exp_coef_1, Formulas.exp_coef_2,
      Formulas.log_coef_1, Formulas.log_coef_2.
    rewrite (proj2 (RealFacts.Rltb_ge _ _) Hr).
    pose proof (sinh_pos Hrpos) as Hs. pose proof (cosh_pos r) as Hc.
    pose proof (cosh2_minus_sinh2 r) as H2.
    pose proof (cosh_gt_1 Hrpos) as Hgt.
    split; [| split; [| split]].
    + rewrite Hsq.
      replace (sinh r / r * (sinh r / r) * (r * r))
        with (sinh r * sinh r) by (field; lra).
      lra.
    + unfold Formulas.clamped_arccosh.
      rewrite (proj2 (RealFacts.Rleb_gt _ _) Hgt).
      now apply arccosh_cosh.
    + field. lra.
    + unfold tanh. field. lra.
Qed.

Lemma recombination (p t : list R) (c1 c2 k1 k2 : R) :
  length p = length t ->
  k1 * c2 = 1 ->
  k1 * c1 = k2 ->
  zip_with Rminus
    (smul k1 (zip_with Rplus (smul c1 p) (smul c2 t))) (smul k2 p)
  = t.
Proof.
  intros Hl H1 H2. revert t Hl.
  induction p as [| x p IH]; intros [| y t] Hl; simpl in *;
    try discriminate; try reflexivity.
  rewrite IH by lia. f_equal.
  transitivity (k1 * c1 * x + k1 * c2 * y - k2 * x); [ring |].
  rewrite H1, H2. ring.
Qed.
End ExpFacts.

Module ZeroVector.
Import HyperbolicSpace.
Local Open Scope R_scope.

Lemma dot_sum_zeros (p : list R) :
  dot_sum (map (fun _ => 0) p) (map (fun _ => 0) p) = 0.
Proof. induction p as [| x p IH]; simpl; [reflexivity | rewrite IH; lra]. Qed.

Lemma squared_norm_zeros (x : R) (p : list R) :
  embedding_squared_norm (map (fun _ => 0) (x :: p)) = Ok 0.
Proof.
  simpl map. rewrite HyperbolicReal.embedding_squared_norm_real.
  f_equal. rewrite dot_sum_zeros. lra.
Qed.

Lemma plus_zeros (p : list R) :
  zip_with Rplus (smul 1 p) (smul 1 (map (fun _ => 0) p)) = p.
Proof.
  induction p as [| x p IH]; simpl; [reflexivity |].
  rewrite IH. f_equal. lra.
Qed.
End ZeroVector.

(** Facts about the vector [0, 1, 0] at the sample point [1, 0, 0]. *)
Module UnitTangent.
Import HyperbolicSpace SamplePoints.
Local Open Scope R_scope.

Lemma projection_of_unit :
  projection_to_tangent_space false origin [0; 1; 0] = Ok [0; 1; 0].
Proof.
  apply ProjectionFacts.projection_fixes_tangent with (n := -1).
  - exact OppositeSheets.squared_norm_origin.
  - unfold origin.
    rewrite Unchecked.embedding_inner_product_real by reflexivity.
    f_equal. simpl. lra.
Qed.

Lemma squared_norm_of_unit : embedding_squared_norm [0; 1; 0] = Ok 1.
Proof.
  rewrite HyperbolicReal.embedding_squared_norm_real.
  f_equal. simpl. lra.
Qed.

Lemma unit_in_regime : 1 = 0 \/ EPSILON <= sqrt 1.
Proof.
  right. rewrite sqrt_1, HyperbolicReal.EPSILON_value. lra.
Qed.
End UnitTangent.

(** X15: with the assertions not executed, the exponential at a
    reference point of squared norm [n <> 0] of a multiple of the
    reference point (the zero vector included) is the reference point, for
    every positive [epsilon]. *)
Theorem riemannian_exp_of_reference_direction
  (ref_point : list R) (c n epsilon : R) :
  HyperbolicSpace.embedding_squared_norm ref_point = Ok n ->
  n <> 0%R ->
  (0 < epsilon)%R ->
  HyperbolicSpace.riemannian_exp false ref_point (smul c ref_point) epsilon
  = Ok ref_point.
Proof.
  intros Hn Hnz Heps.
  pose proof (ProjectionFacts.inner_product_with_multiple ref_point c Hn)
    as Hip.
  assert (Hsq : HyperbolicSpace.embedding_squared_norm
                  (Formulas.projection ref_point (smul c ref_point)
                                       (c * n) n) = Ok 0%R).
  { rewrite ProjectionFacts.projection_of_multiple_entries by exact Hnz.
    destruct ref_point as [| x p]; [discriminate |].
    apply ZeroVector.squared_norm_zeros. }
  rewrite (Unchecked.riemannian_exp_unchecked
             ref_point (smul c ref_point) epsilon Hip Hn Hsq).
  rewrite (proj2 (RealFacts.Rltb_ge 0 0) (Rle_refl 0)), sqrt_0.
  destruct (DistanceFacts.unit_coefficients_at_zero Heps) as [_ [_ [-> ->]]].
  rewrite ProjectionFacts.projection_of_multiple_entries by exact Hnz.
  f_equal. apply ZeroVector.plus_zeros.
Qed.

Lemma riemannian_exp_of_reference_direction_witness :
  HyperbolicSpace.riemannian_exp
    false SamplePoints.boosted (smul 0%R SamplePoints.boosted)
    HyperbolicSpace.EPSILON
  = Ok SamplePoints.boosted.
Proof.
  apply (@riemannian_exp_of_reference_direction
           SamplePoints.boosted 0%R (-1)%R HyperbolicSpace.EPSILON).
  - exact AtSamplePoints.squared_norm_boosted.
  - lra.
  - exact OppositeSheets.EPSILON_pos.
Defined.

(** X16: with the assertions not executed, for a reference point that
    passes [belongs] and a vector of its length, [riemannian_exp] returns
    an array of that length: the squared norm under [math.sqrt] is never
    negative, so that no math domain error is raised. *)
Theorem riemannian_exp_returns
  (ref_point vector : list R) (epsilon : R) (v : pyval) :
  HyperbolicSpace.belongs true ref_point HyperbolicSpace.TOLERANCE = Ok v ->
  length ref_point = length vector ->
  exists riem_exp,
    HyperbolicSpace.riemannian_exp false ref_point vector epsilon
    = Ok riem_exp
    /\ length riem_exp = length ref_point.
Proof.
  intros Hb Hl.
  destruct (Spacelike.riemannian_exp_of_valid_point
              ref_point vector epsilon Hb Hl)
    as [tangent_vec [sq [Hp [_ [_ Hexp]]]]].
  eexists. split; [exact Hexp |].
  destruct (ExpFacts.projection_Ok_inv ref_point vector Hp)
    as [ip [n [_ [_ ->]]]].
  rewrite Unchecked.length_zip_with;
    rewrite !Unchecked.length_smul; [reflexivity |].
  now rewrite Unchecked.length_projection.
Qed.

Lemma riemannian_exp_returns_witness :
  exists riem_exp,
    HyperbolicSpace.riemannian_exp
      false SamplePoints.boosted [3; 1; 2]%R HyperbolicSpace.EPSILON
    = Ok riem_exp
    /\ length riem_exp = length SamplePoints.boosted.
Proof.
  apply (@riemannian_exp_returns
           SamplePoints.boosted [3; 1; 2]%R HyperbolicSpace.EPSILON PyNone).
  - exact FailingInputs.boosted_belongs.
  - reflexivity.
Defined.

(** X17: with the assertions not executed, the exponential at a point of
    squared norm [-1] is again a point of squared norm [-1], when the
    projected vector has squared norm [0] or a norm of at least
    [epsilon] (the closed forms). *)
Theorem riemannian_exp_stays_on_hyperboloid
  (ref_point vector tangent_vec : list R) (epsilon sq : R) :
  HyperbolicSpace.embedding_squared_norm ref_point = Ok (-1)%R ->
  HyperbolicSpace.projection_to_tangent_space false ref_point vector
  = Ok tangent_vec ->
  HyperbolicSpace.embedding_squared_norm tangent_vec = Ok sq ->
  (0 < epsilon)%R ->
  sq = 0%R \/ (epsilon <= sqrt sq)%R ->
  exists riem_exp,
    HyperbolicSpace.riemannian_exp false ref_point vector epsilon
    = Ok riem_exp
    /\ HyperbolicSpace.embedding_squared_norm riem_exp = Ok (-1)%R.
Proof.
  intros Hn Hp Hsq Heps Hregime.
  destruct (ExpFacts.exp_value_and_products
              ref_point vector epsilon Hn Hp Hsq)
    as [Hpos [_ [Hexp [_ Hres]]]].
  destruct (ExpFacts.coefficients_in_regime Heps Hpos Hregime)
    as [Hone _].
  eexists. split; [exact Hexp |].
  rewrite Hres. f_equal. exact Hone.
Qed.

Lemma riemannian_exp_stays_on_hyperboloid_witness :
  exists riem_exp,
    HyperbolicSpace.riemannian_exp
      false SamplePoints.origin [0; 1; 0]%R HyperbolicSpace.EPSILON
    = Ok riem_exp
    /\ HyperbolicSpace.embedding_squared_norm riem_exp = Ok (-1)%R.
Proof.
  apply (@riemannian_exp_stays_on_hyperboloid
           SamplePoints.origin [0; 1; 0]%R [0; 1; 0]%R
           HyperbolicSpace.EPSILON 1%R).
  - exact OppositeSheets.squared_norm_origin.
  - exact UnitTangent.projection_of_unit.
  - exact UnitTangent.squared_norm_of_unit.
  - exact OppositeSheets.EPSILON_pos.
  - exact UnitTangent.unit_in_regime.
Defined.

(** X18: with the assertions not executed and in the same regime, the
    distance from a point of squared norm [-1] to its exponential of a
    vector is the norm of the projected vector. *)
Theorem riemannian_dist_of_exp
  (ref_point vector tangent_vec : list R) (epsilon sq : R) :
  HyperbolicSpace.embedding_squared_norm ref_point = Ok (-1)%R ->
  HyperbolicSpace.projection_to_tangent_space false ref_point vector
  = Ok tangent_vec ->
  HyperbolicSpace.embedding_squared_norm tangent_vec = Ok sq ->
  (0 < epsilon)%R ->
  sq = 0%R \/ (epsilon <= sqrt sq)%R ->
  (riem_exp <- HyperbolicSpace.riemannian_exp
                 false ref_point vector epsilon ;;
   HyperbolicSpace.riemannian_dist false ref_point riem_exp)
  = Ok (sqrt sq).
Proof.
  intros Hn Hp Hsq Heps Hregime.
  destruct (ExpFacts.exp_value_and_products
              ref_point vector epsilon Hn Hp Hsq)
    as [Hpos [_ [Hexp [Hrr Hres]]]].
  destruct (ExpFacts.coefficients_in_regime Heps Hpos Hregime)
    as [Hone [Hangle _]].
  rewrite Hone in Hres. rewrite Hexp, bind_Ok.
  assert (Hnn : (0 <= -1 * -1)%R) by lra.
  rewrite (Unchecked.riemannian_dist_unchecked _ _ Hn Hres Hrr Hnn).
  f_equal. replace (-1 * -1)%R with 1%R by lra. rewrite sqrt_1.
  replace (- - Formulas.exp_coef_1 (sqrt sq) epsilon / 1)%R
    with (Formulas.exp_coef_1 (sqrt sq) epsilon) by field.
  exact Hangle.
Qed.

Lemma riemannian_dist_of_exp_witness :
  (riem_exp <- HyperbolicSpace.riemannian_exp
                 false SamplePoints.origin [0; 1; 0]%R
                 HyperbolicSpace.EPSILON ;;
   HyperbolicSpace.riemannian_dist false SamplePoints.origin riem_exp)
  = Ok (sqrt 1).
Proof.
  apply (@riemannian_dist_of_exp
           SamplePoints.origin [0; 1; 0]%R [0; 1; 0]%R
           HyperbolicSpace.EPSILON 1%R).
  - exact OppositeSheets.squared_norm_origin.
  - exact UnitTangent.projection_of_unit.
  - exact UnitTangent.squared_norm_of_unit.
  - exact OppositeSheets.EPSILON_pos.
  - exact UnitTangent.unit_in_regime.
Defined.

(** X19: with the assertions not executed and in the same regime, the
    logarithm after the exponential returns the projected vector:
    [riemannian_log(p, riemannian_exp(p, v))] is the projection of [v] to
    the tangent space at [p]. *)
Theorem riemannian_log_of_exp
  (ref_point vector tangent_vec : list R) (epsilon sq : R) :
  HyperbolicSpace.embedding_squared_norm ref_point = Ok (-1)%R ->
  HyperbolicSpace.projection_to_tangent_space false ref_point vector
  = Ok tangent_vec ->
  HyperbolicSpace.embedding_squared_norm tangent_vec = Ok sq ->
  (0 < epsilon)%R ->
  sq = 0%R \/ (epsilon <= sqrt sq)%R ->
  (riem_exp <- HyperbolicSpace.riemannian_exp
                 false ref_point vector epsilon ;;
   HyperbolicSpace.riemannian_log false ref_point riem_exp epsilon)
  = Ok tangent_vec.
Proof.
  intros Hn Hp Hsq Heps Hregime.
  destruct (ExpFacts.exp_value_and_products
              ref_point vector epsilon Hn Hp Hsq)
    as [Hpos [Hl [Hexp [Hrr Hres]]]].
  destruct (ExpFacts.coefficients_in_regime Heps Hpos Hregime)
    as [Hone [Hangle [Hk1 Hk2]]].
  rewrite Hone in Hres. rewrite Hexp, bind_Ok.
  assert (Hnn : (0 <= -1 * -1)%R) by lra.
  pose proof (Unchecked.riemannian_dist_unchecked _ _ Hn Hres Hrr Hnn)
    as Hd.
  replace (-1 * -1)%R with 1%R in Hd by lra. rewrite sqrt_1 in Hd.
  replace (- - Formulas.exp_coef_1 (sqrt sq) epsilon / 1)%R
    with (Formulas.exp_coef_1 (sqrt sq) epsilon) in Hd by field.
  rewrite Hangle in Hd.
  rewrite (Unchecked.riemannian_log_unchecked _ _ epsilon Hd).
  f_equal. now apply ExpFacts.recombination.
Qed.

Lemma riemannian_log_of_exp_witness :
  (riem_exp <- HyperbolicSpace.riemannian_exp
                 false SamplePoints.origin [0; 1; 0]%R
                 HyperbolicSpace.EPSILON ;;
   HyperbolicSpace.riemannian_log
     false SamplePoints.origin riem_exp HyperbolicSpace.EPSILON)
  = Ok [0; 1; 0]%R.
Proof.
  apply (@riemannian_log_of_exp
           SamplePoints.origin [0; 1; 0]%R [0; 1; 0]%R
           HyperbolicSpace.EPSILON 1%R).
  - exact OppositeSheets.squared_norm_origin.
  - exact UnitTangent.projection_of_unit.
  - exact UnitTangent.squared_norm_of_unit.
  - exact OppositeSheets.EPSILON_pos.
  - exact UnitTangent.unit_in_regime.
Defined.

(** ** The logarithm, with the assertions not executed *)

Module LogFacts.
Import HyperbolicSpace.
Local Open Scope R_scope.

(** The angle of two points of squared norm [-1], and the identities of
    the coefficients of the logarithm at it. *)
Lemma angle_and_coefficients (p q : list R) (epsilon ip : R) :
  embedding_squared_norm p = Ok (-1) ->
  embedding_squared_norm q = Ok (-1) ->
  embedding_inner_product p q = Ok ip ->
  (ip = -1 /\ 0 < epsilon) \/ (ip < -1 /\ epsilon <= arccosh (- ip)) ->
  exists angle,
    riemannian_dist false p q = Ok angle
    /\ 0 <= angle
    /\ Formulas.log_coef_1 angle epsilon * ip
       + Formulas.log_coef_2 angle epsilon = 0
    /\ - Formulas.log_coef_1 angle epsilon
         * Formulas.log_coef_1 angle epsilon
       - Formulas.log_coef_1 angle epsilon
         * Formulas.log_coef_2 angle epsilon * ip
       = angle * angle.
Proof.
  intros Hp Hq Hip Hcase.
  assert (Hpos : 0 <= -1 * -1) by lra.
  pose proof (Unchecked.riemannian_dist_unchecked p q Hp Hq Hip Hpos) as Hd.
  replace (-1 * -1) with 1 in Hd by lra. rewrite sqrt_1 in Hd.
  replace (- ip / 1) with (- ip) in Hd by (field; lra).
  unfold Formulas.clamped_arccosh in Hd.
  destruct Hcase as [[-> Heps] | [Hlt Heps]].
  - replace (- -1) with 1 in Hd by lra.
    rewrite (proj2 (RealFacts.Rleb_le 1 1) (Rle_refl 1)) in Hd.
    exists 0. split; [exact Hd |]. split; [lra |].
    destruct (DistanceFacts.unit_coefficients_at_zero Heps) as [-> [-> _]].
    split; lra.
  - assert (Hc : 1 < - ip) by lra.
    rewrite (proj2 (RealFacts.Rleb_gt (- ip) 1) Hc) in Hd.
    exists (arccosh (- ip)). split; [exact Hd |].
    destruct (RoundTrip.closed_form_coefficients Hc Heps)
      as [E1 [E2 _]].
    pose proof (RoundTrip.arccosh_pos Hc) as Ha.
    assert (Hs : 0 < sqrt (- ip * - ip - 1)) by (apply sqrt_lt_R0; nra).
    assert (Hss : sqrt (- ip * - ip - 1) * sqrt (- ip * - ip - 1)
                  = - ip * - ip - 1) by (apply sqrt_sqrt; nra).
    rewrite E1, E2. split; [lra |]. split.
    + field. lra.
    + set (a := arccosh (- ip)) in *.
      set (s := sqrt (- ip * - ip - 1)) in *.
      apply Rmult_eq_reg_r with (s * s); [| nra].
      transitivity (a * a * (- ip * - ip - 1)); [field; lra |].
      rewrite Hss. ring.
Qed.
End LogFacts.

(** X20: with the assertions not executed and in exact arithmetic, the
    exponential of the logarithm is the second point, for two points of
    squared norm [-1] whose Minkowski product is [-1], or is below [-1]
    with an angle of at least [epsilon] (the closed forms). *)
Theorem riemannian_exp_of_log (p q : list R) (epsilon ip : R) :
  HyperbolicSpace.embedding_squared_norm p = Ok (-1)%R ->
  HyperbolicSpace.embedding_squared_norm q = Ok (-1)%R ->
  HyperbolicSpace.embedding_inner_product p q = Ok ip ->
  (ip = -1 /\ 0 < epsilon)%R
  \/ (ip < -1 /\ epsilon <= arccosh (- ip))%R ->
  (v <- HyperbolicSpace.riemannian_log false p q epsilon ;;
   HyperbolicSpace.riemannian_exp false p v epsilon) = Ok q.
Proof. apply RoundTrip.round_trip_unchecked. Qed.

Lemma riemannian_exp_of_log_witness :
  (v <- HyperbolicSpace.riemannian_log
          false SamplePoints.origin SamplePoints.boosted
          HyperbolicSpace.EPSILON ;;
   HyperbolicSpace.riemannian_exp
     false SamplePoints.origin v HyperbolicSpace.EPSILON)
  = Ok SamplePoints.boosted.
Proof.
  apply (@riemannian_exp_of_log
           SamplePoints.origin SamplePoints.boosted
           HyperbolicSpace.EPSILON (- (5 / 4))%R).
  - exact OppositeSheets.squared_norm_origin.
  - exact AtSamplePoints.squared_norm_boosted.
  - exact AtSamplePoints.inner_product_origin_boosted.
  - right. split; [lra |].
    replace (- - (5 / 4))%R with (5 / 4)%R by lra.
    rewrite AtSamplePoints.arccosh_five_quarters,
      HyperbolicReal.EPSILON_value.
    pose proof ln_lt_2. lra.
Defined.

(** X21: with the assertions not executed and in the same regime, the
    logarithm is a tangent vector at the reference point (its Minkowski
    product with the reference point is [0]) and its squared norm is the
    square of the distance of the two points. *)
Theorem riemannian_log_is_tangent (p q : list R) (epsilon ip : R) :
  HyperbolicSpace.embedding_squared_norm p = Ok (-1)%R ->
  HyperbolicSpace.embedding_squared_norm q = Ok (-1)%R ->
  HyperbolicSpace.embedding_inner_product p q = Ok ip ->
  (ip = -1 /\ 0 < epsilon)%R
  \/ (ip < -1 /\ epsilon <= arccosh (- ip))%R ->
  exists angle riem_log,
    HyperbolicSpace.riemannian_dist false p q = Ok angle
    /\ HyperbolicSpace.riemannian_log false p q epsilon = Ok riem_log
    /\ HyperbolicSpace.embedding_inner_product p riem_log = Ok 0%R
    /\ HyperbolicSpace.embedding_squared_norm riem_log
       = Ok (angle * angle)%R.
Proof.
  intros Hp Hq Hip Hcase.
  destruct (LogFacts.angle_and_coefficients p q Hp Hq Hip Hcase)
    as [angle [Hd [_ [Horth Hsq]]]].
  set (k1 := Formulas.log_coef_1 angle epsilon) in *.
  set (k2 := Formulas.log_coef_2 angle epsilon) in *.
  exists angle, (zip_with Rminus (smul k1 q) (smul k2 p)).
  split; [exact Hd |].
  split; [exact (Unchecked.riemannian_log_unchecked p q epsilon Hd) |].
  assert (HpL : HyperbolicSpace.embedding_inner_product
                  p (zip_with Rminus (smul k1 q) (smul k2 p)) = Ok 0%R).
  { rewrite (RoundTrip.inner_product_combination p q p k1 k2 Hip Hp).
    f_equal. lra. }
  assert (HqL : HyperbolicSpace.embedding_inner_product
                  q (zip_with Rminus (smul k1 q) (smul k2 p))
                = Ok (- k1 - k2 * ip)%R).
  { rewrite (RoundTrip.inner_product_combination q q p k1 k2 Hq
               (RoundTrip.inner_product_comm p q Hip)).
    f_equal. lra. }
  split; [exact HpL |].
  unfold HyperbolicSpace.embedding_squared_norm.
  rewrite (RoundTrip.inner_product_combination _ q p k1 k2
             (RoundTrip.inner_product_comm q _ HqL)
             (RoundTrip.inner_product_comm p _ HpL)).
  f_equal. lra.
Qed.

Lemma riemannian_log_is_tangent_witness :
  exists angle riem_log,
    HyperbolicSpace.riemannian_dist
      false SamplePoints.origin SamplePoints.boosted = Ok angle
    /\ HyperbolicSpace.riemannian_log
         false SamplePoints.origin SamplePoints.boosted
         HyperbolicSpace.EPSILON = Ok riem_log
    /\ HyperbolicSpace.embedding_inner_product SamplePoints.origin riem_log
       = Ok 0%R
    /\ HyperbolicSpace.embedding_squared_norm riem_log
       = Ok (angle * angle)%R.
Proof.
  apply (@riemannian_log_is_tangent
           SamplePoints.origin SamplePoints.boosted
           HyperbolicSpace.EPSILON (- (5 / 4))%R).
  - exact OppositeSheets.squared_norm_origin.
  - exact AtSamplePoints.squared_norm_boosted.
  - exact AtSamplePoints.inner_product_origin_boosted.
  - right. split; [lra |].
    replace (- - (5 / 4))%R with (5 / 4)%R by lra.
    rewrite AtSamplePoints.arccosh_five_quarters,
      HyperbolicReal.EPSILON_value.
    pose proof ln_lt_2. lra.
Defined.

(** X22: for every draw of [np.random.random_sample] ([dimension] numbers
    of the interval [0, 1)), [random_uniform] returns an array of
    [dimension + 1] coordinates, of squared norm [-1] and first
    coordinate at least [1] (a point of the upper sheet that passes
    [belongs]); each of its other coordinates is at most [|max_norm| / 2]
    in absolute value. *)
Theorem random_uniform_on_upper_sheet
  (random_sample : nat -> list R) (dimension : nat) (max_norm : R) :
  length (random_sample dimension) = dimension ->
  Forall (fun u => 0 <= u < 1)%R (random_sample dimension) ->
  exists x rest,
    HyperbolicSpace.random_uniform random_sample dimension max_norm
    = Ok (x :: rest)
    /\ length rest = dimension
    /\ (1 <= x)%R
    /\ HyperbolicSpace.embedding_squared_norm (x :: rest) = Ok (-1)%R
    /\ HyperbolicSpace.belongs true (x :: rest) HyperbolicSpace.TOLERANCE
       = Ok PyNone
    /\ Forall (fun c => Rabs c <= Rabs max_norm / 2)%R rest.
Proof.
  intros Hlen Hrange.
  unfold HyperbolicSpace.random_uniform.
  set (rest := smul_r (ssub (random_sample dimension) (of_Z 1 / of_Z 2)%fl)
                      max_norm).
  exists (sqrt (1 + dot_sum rest rest)), rest.
  split; [| split; [| split; [| split; [| split]]]].
  - rewrite CoordinateFacts.intrinsic_to_extrinsic_coords_value.
    reflexivity.
  - unfold rest, smul_r, ssub. now rewrite !length_map.
  - pose proof (RealFacts.dot_sum_self_nonneg rest) as Hd.
    rewrite <- sqrt_1 at 1. apply sqrt_le_1_alt. lra.
  - apply HyperbolicReal.extrinsic_squared_norm.
  - apply HyperbolicReal.belongs_on_hyperboloid,
      HyperbolicReal.extrinsic_squared_norm.
  - unfold rest, smul_r, ssub. rewrite map_map.
    apply Forall_map. apply Forall_impl with (2 := Hrange).
    intros u [H0 H1]. simpl.
    rewrite Rabs_mult.
    assert (Hu : (Rabs (u - 1 / 2) <= 1 / 2)%R)
      by (apply Rabs_le; lra).
    pose proof (Rabs_pos max_norm) as Hm.
    nra.
Qed.

Lemma random_uniform_on_upper_sheet_witness :
  exists x rest,
    HyperbolicSpace.random_uniform
      (fun d => repeat (1 / 4)%R d) 2 3%R = Ok (x :: rest)
    /\ length rest = 2%nat
    /\ (1 <= x)%R
    /\ HyperbolicSpace.embedding_squared_norm (x :: rest) = Ok (-1)%R
    /\ HyperbolicSpace.belongs true (x :: rest) HyperbolicSpace.TOLERANCE
       = Ok PyNone
    /\ Forall (fun c => Rabs c <= Rabs 3 / 2)%R rest.
Proof.
  apply (@random_uniform_on_upper_sheet
           (fun d => repeat (1 / 4)%R d) 2 3%R).
  - reflexivity.
  - simpl. repeat constructor; lra.
Defined.

(** ** More on the general linear group *)

Module GeneralLinearMore.
Section Laws.
Context {F : Type} {SF : Scalar F}.
Local Open Scope fl_scope.

Variable M : Type.
Variable n : nat.
Variable gs_eye : nat -> nat -> M.
Variable det : M -> F.
Variable inv : M -> result M.
Variables expm logm : M -> M.
Variable mul : M -> M -> M.
Variable scale : F -> M -> M.
(** The matrices on which the backend's [logm] inverts its [expm]. *)
Variable small : M -> Prop.

Local Abbreviation identity := (GeneralLinear.identity n gs_eye).
Local Abbreviation invertible := (GeneralLinear.invertible det).
Local Abbreviation exp := (GeneralLinear.exp inv expm mul).
Local Abbreviation log := (GeneralLinear.log inv logm mul).
Local Abbreviation orbit := (GeneralLinear.orbit inv expm logm mul scale).

Hypothesis mul_assoc : forall a b c, mul a (mul b c) = mul (mul a b) c.
Hypothesis mul_identity_r : forall a, mul a identity = a.
Hypothesis mul_identity_l : forall a, mul identity a = a.
Hypothesis inv_invertible :
  forall a, invertible a ->
            exists a', inv a = Ok a'
                       /\ mul a' a = identity /\ mul a a' = identity.
Hypothesis logm_expm : forall a, small a -> logm (expm a) = a.

Lemma inverse_unique (a left_inv right_inv : M) :
  mul left_inv a = identity ->
  mul a right_inv = identity ->
  left_inv = right_inv.
Proof.
  intros Hl Hr.
  rewrite <- (mul_identity_r left_inv), <- Hr, mul_assoc, Hl.
  apply mul_identity_l.
Qed.

Lemma inv_identity : invertible identity -> inv identity = Ok identity.
Proof.
  intros Hi. destruct (inv_invertible Hi) as [a' [Hinv [Hl _]]].
  rewrite mul_identity_r in Hl. now subst a'.
Qed.

(** X23: the identity as base point is the omitted base point: when the
    identity is invertible for [belongs], [exp] and [log] at it are the
    Lie exponential [expm] and logarithm [logm]. *)
Theorem exp_and_log_at_identity (tangent_vec point : M) :
  invertible identity ->
  exp tangent_vec (Some identity) = exp tangent_vec None
  /\ log point (Some identity) = log point None.
Proof.
  intros Hi. simpl. unfold GeneralLinear.inv.
  rewrite (inv_identity Hi). simpl.
  now rewrite !mul_identity_l.
Qed.

(** X24: [exp] at an invertible base point [g h] of the left-translated
    vector [g v] is the left translate by [g] of [exp] at [h] of [v]: the
    vector field that [exp] follows is left-invariant. *)
Theorem exp_is_left_invariant (g h tangent_vec : M) :
  invertible g ->
  invertible h ->
  invertible (mul g h) ->
  exists point,
    exp tangent_vec (Some h) = Ok point
    /\ exp (mul g tangent_vec) (Some (mul g h)) = Ok (mul g point).
Proof.
  intros Hg Hh Hgh.
  destruct (inv_invertible Hg) as [g' [_ [Hgl Hgr]]].
  destruct (inv_invertible Hh) as [h' [Hhinv [Hhl Hhr]]].
  destruct (inv_invertible Hgh) as [x [Hxinv [Hxl _]]].
  assert (Hx : x = mul h' g').
  { apply (inverse_unique (a := mul g h)); [exact Hxl |].
    rewrite mul_assoc, <- (mul_assoc g h h'), Hhr, mul_identity_r.
    exact Hgr. }
  simpl. unfold GeneralLinear.inv. rewrite Hhinv, Hxinv. simpl.
  eexists. split; [reflexivity |].
  f_equal. rewrite Hx.
  rewrite <- (mul_assoc h' g' (mul g tangent_vec)).
  rewrite (mul_assoc g' g tangent_vec), Hgl, mul_identity_l.
  now rewrite mul_assoc.
Qed.

(** X25: for a backend whose [logm] inverts its [expm] on a domain
    [small], [log] after [exp] at the same invertible base point [h]
    returns the tangent vector [v], when [inv(h) v] is in that domain. *)
Theorem log_of_exp_recovers_vector (tangent_vec h : M) :
  invertible h ->
  (forall h', inv h = Ok h' -> small (mul h' tangent_vec)) ->
  (point <- exp tangent_vec (Some h) ;; log point (Some h))
  = Ok tangent_vec.
Proof.
  intros Hh Hsmall.
  destruct (inv_invertible Hh) as [h' [Hinv [Hl Hr]]].
  simpl. unfold GeneralLinear.inv. rewrite Hinv. simpl.
  unfold GeneralLinear.inv. rewrite ?Hinv. simpl.
  f_equal.
  rewrite mul_assoc, Hl, mul_identity_l.
  rewrite logm_expm by now apply Hsmall.
  now rewrite mul_assoc, Hr, mul_identity_l.
Qed.

(** X26: a base point on which the backend's [inv] raises makes [exp] and
    [log] raise the same exception, and makes [orbit] raise it when it is
    called, before any path is returned. *)
Theorem singular_base_point_raises
  (base_point tangent_vec point : M) (e : exn) :
  inv base_point = Raise e ->
  exp tangent_vec (Some base_point) = Raise e
  /\ log point (Some base_point) = Raise e
  /\ orbit point (Some base_point) = Raise e.
Proof.
  intros Hinv. unfold GeneralLinear.orbit. simpl.
  unfold GeneralLinear.inv. rewrite Hinv. simpl. auto.
Qed.
End Laws.
End GeneralLinearMore.

Module GL1More.
Local Open Scope R_scope.

Lemma gl1_logm_expm (a : R) : True -> GL1.logm (GL1.expm a) = a.
Proof. intros _. apply ln_exp. Qed.

Lemma gl1_invertible (x : R) :
  x <> 0 -> GeneralLinear.invertible GL1.det x.
Proof. apply GL1Facts.gl1_invertible_nonzero. Qed.

Lemma gl1_inv_zero : GL1.linalg_inv 0 = Raise LinAlgError.
Proof.
  unfold GL1.linalg_inv.
  now rewrite (proj2 (RealFacts.Reqb_eq 0 0) eq_refl).
Qed.
End GL1More.

(** In GL(1): the base point [1] is the omitted base point. *)
Lemma exp_and_log_at_identity_witness :
  GL1.group_exp 5%R (Some (GeneralLinear.identity 1 GL1.eye))
  = GL1.group_exp 5%R None
  /\ GL1.group_log 7%R (Some (GeneralLinear.identity 1 GL1.eye))
     = GL1.group_log 7%R None.
Proof.
  apply (@GeneralLinearMore.exp_and_log_at_identity
           R R_scalar R 1%nat GL1.eye GL1.det GL1.linalg_inv
           GL1.expm GL1.logm GL1.mul
           GL1Facts.gl1_mul_identity_r GL1Facts.gl1_mul_identity_l
           GL1Facts.gl1_inv_invertible 5%R 7%R).
  apply GL1More.gl1_invertible. rewrite GL1Facts.gl1_identity_value. lra.
Defined.

(** In GL(1): translating the base point [3] and the vector [5] by [2]. *)
Lemma exp_is_left_invariant_witness :
  exists point,
    GL1.group_exp 5%R (Some 3%R) = Ok point
    /\ GL1.group_exp (GL1.mul 2%R 5%R) (Some (GL1.mul 2%R 3%R))
       = Ok (GL1.mul 2%R point).
Proof.
  apply (@GeneralLinearMore.exp_is_left_invariant
           R R_scalar R 1%nat GL1.eye GL1.det GL1.linalg_inv
           GL1.expm GL1.mul
           GL1Facts.gl1_mul_assoc GL1Facts.gl1_mul_identity_r
           GL1Facts.gl1_mul_identity_l GL1Facts.gl1_inv_invertible
           2%R 3%R 5%R).
  - apply GL1More.gl1_invertible. lra.
  - apply GL1More.gl1_invertible. lra.
  - apply GL1More.gl1_invertible. unfold GL1.mul. lra.
Defined.

(** In GL(1): from the vector [5] at the base point [3] and back. *)
Lemma log_of_exp_recovers_vector_witness :
  (point <- GL1.group_exp 5%R (Some 3%R) ;;
   GL1.group_log point (Some 3%R)) = Ok 5%R.
Proof.
  apply (@GeneralLinearMore.log_of_exp_recovers_vector
           R R_scalar R 1%nat GL1.eye GL1.det GL1.linalg_inv
           GL1.expm GL1.logm GL1.mul (fun _ => True)
           GL1Facts.gl1_mul_assoc GL1Facts.gl1_mul_identity_l
           GL1Facts.gl1_inv_invertible GL1More.gl1_logm_expm
           5%R 3%R).
  - apply GL1More.gl1_invertible. lra.
  - intros h' _. exact I.
Defined.

(** In GL(1): the base point [0] has no inverse. *)
Lemma singular_base_point_raises_witness :
  GL1.group_exp 5%R (Some 0%R) = Raise LinAlgError
  /\ GL1.group_log 7%R (Some 0%R) = Raise LinAlgError
  /\ GL1.group_orbit 7%R (Some 0%R) = Raise LinAlgError.
Proof.
  apply (@GeneralLinearMore.singular_base_point_raises
           R R GL1.linalg_inv GL1.expm GL1.logm GL1.mul GL1.scale
           0%R 5%R 7%R LinAlgError).
  exact GL1More.gl1_inv_zero.
Defined.

(** ** Math domain errors, with the assertions not executed *)

(** X27: with the assertions not executed, [riemannian_dist] of two
    arrays of one length whose squared norms have opposite signs raises
    [ValueError]: [math.sqrt] is called on their negative product. *)
Theorem riemannian_dist_domain_error
  (point_a point_b : list R) (na nb : R) :
  HyperbolicSpace.embedding_squared_norm point_a = Ok na ->
  HyperbolicSpace.embedding_squared_norm point_b = Ok nb ->
  length point_a = length point_b ->
  (na * nb < 0)%R ->
  HyperbolicSpace.riemannian_dist false point_a point_b = Raise ValueError.
Proof.
  intros Ha Hb Hl Hneg.
  destruct (ProjectionFacts.inner_product_returns point_a point_b Ha Hl)
    as [ip Hip].
  unfold HyperbolicSpace.riemannian_dist.
  rewrite !py_assert_off, Ha, Hb, Hip, !bind_Ok. simpl fmul.
  now rewrite (Unchecked.math_sqrt_negative Hneg).
Qed.

Lemma riemannian_dist_domain_error_witness :
  HyperbolicSpace.riemannian_dist false SamplePoints.origin [0; 1; 0]%R
  = Raise ValueError.
Proof.
  apply (@riemannian_dist_domain_error
           SamplePoints.origin [0; 1; 0]%R (-1)%R 1%R).
  - exact OppositeSheets.squared_norm_origin.
  - exact UnitTangent.squared_norm_of_unit.
  - reflexivity.
  - lra.
Defined.

(** X28: with the assertions not executed, [riemannian_exp] at a
    reference point of nonzero squared norm raises [ValueError] when the
    projected vector has a negative squared norm: [math.sqrt] is called
    on it.  This happens at reference points of positive squared norm,
    which are not points of the hyperboloid. *)
Theorem riemannian_exp_domain_error
  (ref_point vector tangent_vec : list R) (epsilon n sq : R) :
  HyperbolicSpace.embedding_squared_norm ref_point = Ok n ->
  n <> 0%R ->
  HyperbolicSpace.projection_to_tangent_space false ref_point vector
  = Ok tangent_vec ->
  HyperbolicSpace.embedding_squared_norm tangent_vec = Ok sq ->
  (sq < 0)%R ->
  HyperbolicSpace.riemannian_exp false ref_point vector epsilon
  = Raise ValueError.
Proof.
  intros _ _ Hp Hsq Hneg.
  unfold HyperbolicSpace.riemannian_exp.
  rewrite py_assert_off, bind_Ok, Hp, bind_Ok, Hsq, bind_Ok.
  now rewrite (Unchecked.math_sqrt_negative Hneg).
Qed.

Lemma riemannian_exp_domain_error_witness :
  HyperbolicSpace.riemannian_exp
    false [0; 1]%R [1; 0]%R HyperbolicSpace.EPSILON
  = Raise ValueError.
Proof.
  assert (Hn : HyperbolicSpace.embedding_squared_norm [0; 1]%R = Ok 1%R).
  { rewrite HyperbolicReal.embedding_squared_norm_real.
    f_equal. simpl. lra. }
  assert (Hip : HyperbolicSpace.embedding_inner_product [0; 1]%R [1; 0]%R
                = Ok 0%R).
  { rewrite Unchecked.embedding_inner_product_real by reflexivity.
    f_equal. simpl. lra. }
  apply (@riemannian_exp_domain_error
           [0; 1]%R [1; 0]%R [1; 0]%R HyperbolicSpace.EPSILON 1%R (-1)%R).
  - exact Hn.
  - lra.
  - now apply ProjectionFacts.projection_fixes_tangent with (n := 1%R).
  - rewrite HyperbolicReal.embedding_squared_norm_real.
    f_equal. simpl. lra.
  - lra.
Defined.
